(** * SimpleAgent: a shallow embedding of [examples/simple_agent.py]

    The agent is a Python class.  Its values are dynamically typed, its
    methods raise exceptions, and [chat] mutates [self.memory]; the
    embedding keeps all three: a universe [pyval] of the values that cross
    the agent (what [json] decodes and encodes), a result type [outcome]
    with Python's exceptions, and explicit state passing for the memory and
    for the requests sent to the completion backend.

    The interpreter and the libraries the file calls ([eval], [json.loads],
    [json.dumps], subscripting, keyword-argument binding) are modelled on a
    documented fragment.  A run that leaves the fragment evaluates to
    [Unmodelled]: nothing is claimed about it.  Characters are the code
    points 0..255, numbers are integers (no floating point). *)

From Stdlib Require Import ZArith QArith Ascii String List Bool Lia.
From stdpp Require Import base option list strings pretty gmap.

Set Warnings "-register-all".

Local Open Scope string_scope.
Local Open Scope list_scope.
Local Open Scope Z_scope.

(** ** Values *)

(** The values of the JSON data model, as Python holds them: [None],
    [bool], [int], [str], [list], and [dict] with [str] keys in insertion
    order. *)
Inductive pyval : Type :=
  | PyNone
  | PyBool (b : bool)
  | PyInt (z : Z)
  | PyStr (s : string)
  | PyList (l : list pyval)
  | PyDict (d : list (string * pyval)).

(** [type(v).__name__] *)
Definition type_name (v : pyval) : string :=
  match v with
  | PyNone => "NoneType"
  | PyBool _ => "bool"
  | PyInt _ => "int"
  | PyStr _ => "str"
  | PyList _ => "list"
  | PyDict _ => "dict"
  end.

(** ** Exceptions *)

Inductive exn_class : Type :=
  | Exception
  | ValueError
  | JSONDecodeError
  | KeyError
  | IndexError
  | TypeError
  | SyntaxError
  | ZeroDivisionError
  | RequestException
  | SystemExit
  | KeyboardInterrupt.

(** The classes under [Exception]; [SystemExit] and [KeyboardInterrupt]
    derive from [BaseException] only, and [except Exception] lets them
    through. *)
Definition is_Exception (c : exn_class) : bool :=
  match c with
  | SystemExit | KeyboardInterrupt => false
  | _ => true
  end.

(** An exception object: its class and [str(e)].  The text is [None] where
    it varies between CPython releases and no code of the agent reads it. *)
Record exn : Type := Exn { exn_type : exn_class; exn_str : option string }.

(** ** Results of a call *)

Inductive outcome (A : Type) : Type :=
  | Returns (a : A)
  | Raises (e : exn)
  | Unmodelled.
Arguments Returns {A} a.
Arguments Raises {A} e.
Arguments Unmodelled {A}.

Definition bind {A B : Type} (m : outcome A) (k : A -> outcome B) : outcome B :=
  match m with
  | Returns a => k a
  | Raises e => Raises e
  | Unmodelled => Unmodelled
  end.

Notation "'let*' x ':=' m 'in' k" := (bind m (fun x => k))
  (at level 10, x name, m at level 100, k at level 200).

(** ** Text *)

(** The double quote, and a string with every backquote turned into one:
    [quoted "{`a`: 1}"] is the JSON text of an object with the key [a]. *)
Definition dq : ascii := "034"%char.
Definition DQ : string := String dq EmptyString.
Definition nl : string := String "010"%char EmptyString.

Fixpoint quoted (s : string) : string :=
  match s with
  | EmptyString => EmptyString
  | String c rest => String (if Ascii.eqb c "`" then dq else c) (quoted rest)
  end.

Definition join (sep : string) (parts : list string) : string :=
  match parts with
  | [] => ""
  | p :: ps => fold_left (fun acc q => acc +:+ sep +:+ q) ps p
  end.

Definition code (c : ascii) : N := N_of_ascii c.

(** Printable ASCII, [' '] to ['~']. *)
Definition printable (c : ascii) : bool := ((32 <=? code c) && (code c <=? 126))%N.

(** [repr(s)] of a string, on the strings where it is [s] between single
    quotes: printable ASCII with no quote and no backslash. *)
Definition plain_char (c : ascii) : bool :=
  printable c && negb (Ascii.eqb c "'") && negb (Ascii.eqb c "\").

Definition py_repr_str (s : string) : option string :=
  if forallb plain_char (list_ascii_of_string s)
  then Some ("'" +:+ s +:+ "'") else None.

(** The decimal text of an integer.  CPython 3.11 and later refuse to
    convert more than 4300 digits; such integers are left out. *)
Definition max_str_digits : nat := 4300.

Definition int_text (z : Z) : outcome string :=
  let s := pretty z in
  if (String.length s <=? max_str_digits)%nat then Returns s else Unmodelled.

(** [str(v)], which is what an f-string field [{v}] inserts.  The text of a
    list or a dict takes the [repr] of its items and is left out. *)
Definition py_str (v : pyval) : outcome string :=
  match v with
  | PyNone => Returns "None"
  | PyBool true => Returns "True"
  | PyBool false => Returns "False"
  | PyInt z => int_text z
  | PyStr s => Returns s
  | PyList _ | PyDict _ => Unmodelled
  end.

(** ** Dicts, subscripts, iteration *)

Fixpoint dict_get (k : string) (d : list (string * pyval)) : option pyval :=
  match d with
  | [] => None
  | (k', v) :: rest => if String.eqb k k' then Some v else dict_get k rest
  end.

(** [d[k] = v]: the value of a key already there is replaced where it
    stands, a new key goes last. *)
Fixpoint dict_set (k : string) (v : pyval) (d : list (string * pyval))
  : list (string * pyval) :=
  match d with
  | [] => [(k, v)]
  | (k', v') :: rest =>
      if String.eqb k k' then (k, v) :: rest else (k', v') :: dict_set k v rest
  end.

(** [obj[k]] for a string [k]. *)
Definition py_getitem_key (obj : pyval) (k : string) : outcome pyval :=
  match obj with
  | PyDict d =>
      match dict_get k d with
      | Some v => Returns v
      | None => Raises (Exn KeyError (py_repr_str k))
      end
  | _ => Raises (Exn TypeError None)
  end.

(** [obj[i]] for an integer [i]; a negative index counts from the end. *)
Definition seq_index {A : Type} (l : list A) (i : Z) : option A :=
  let n := Z.of_nat (length l) in
  let j := if i <? 0 then i + n else i in
  if (0 <=? j) && (j <? n) then nth_error l (Z.to_nat j) else None.

Definition py_getitem_index (obj : pyval) (i : Z) : outcome pyval :=
  match obj with
  | PyList l =>
      match seq_index l i with
      | Some v => Returns v
      | None => Raises (Exn IndexError (Some "list index out of range"))
      end
  | PyStr s =>
      match seq_index (list_ascii_of_string s) i with
      | Some c => Returns (PyStr (String c EmptyString))
      | None => Raises (Exn IndexError (Some "string index out of range"))
      end
  | PyDict _ => Raises (Exn KeyError (Some (pretty i)))
  | _ => Raises (Exn TypeError None)
  end.

(** The items a [for] loop draws from [v]. *)
Definition py_iter (v : pyval) : outcome (list pyval) :=
  match v with
  | PyList l => Returns l
  | PyDict d => Returns (map (fun kv => PyStr (fst kv)) d)
  | PyStr s => Returns (map (fun c => PyStr (String c EmptyString)) (list_ascii_of_string s))
  | _ => Raises (Exn TypeError (Some ("'" +:+ type_name v +:+ "' object is not iterable")))
  end.

(** ** [json.dumps]

    With the default options: [", "] and [": "] as separators and every
    character outside printable ASCII escaped. *)

Definition hex_digit (n : N) : ascii :=
  ascii_of_N (if (n <? 10)%N then 48 + n else 87 + n)%N.

Definition json_escape_char (c : ascii) : string :=
  if Ascii.eqb c dq then String "\" DQ
  else if Ascii.eqb c "\" then "\\"
  else if Ascii.eqb c "010" then "\n"
  else if Ascii.eqb c "013" then "\r"
  else if Ascii.eqb c "009" then "\t"
  else if Ascii.eqb c "008" then "\b"
  else if Ascii.eqb c "012" then "\f"
  else if printable c then String c EmptyString
  else "\u00" +:+ String (hex_digit (code c / 16)) (String (hex_digit (code c mod 16)) EmptyString).

Fixpoint json_escape (s : string) : string :=
  match s with
  | EmptyString => EmptyString
  | String c rest => json_escape_char c +:+ json_escape rest
  end.

Definition json_string (s : string) : string := DQ +:+ json_escape s +:+ DQ.

(** The texts of the items of a container, or the first that is not
    modelled. *)
Fixpoint sequence {A : Type} (l : list (outcome A)) : outcome (list A) :=
  match l with
  | [] => Returns []
  | m :: rest => let* a := m in let* r := sequence rest in Returns (a :: r)
  end.

Fixpoint json_dumps (v : pyval) : outcome string :=
  match v with
  | PyNone => Returns "null"
  | PyBool true => Returns "true"
  | PyBool false => Returns "false"
  | PyInt z => int_text z
  | PyStr s => Returns (json_string s)
  | PyList l =>
      let* items := sequence (map json_dumps l) in
      Returns ("[" +:+ join ", " items +:+ "]")
  | PyDict d =>
      let* items :=
        sequence (map (fun kv =>
                         let* x := json_dumps (snd kv) in
                         Returns (json_string (fst kv) +:+ ": " +:+ x)) d) in
      Returns ("{" +:+ join ", " items +:+ "}")
  end.

(** ** [json.loads]

    The decoder of the standard library, on JSON without floating-point
    numbers, [\u] escapes, [NaN] and [Infinity]; a text that uses one of
    these is [Unmodelled].  Every other malformed text raises
    [JSONDecodeError]. *)

Definition is_ws (c : ascii) : bool :=
  Ascii.eqb c " " || Ascii.eqb c "009" || Ascii.eqb c "010" || Ascii.eqb c "013".

Fixpoint skip_ws (s : string) : string :=
  match s with
  | String c rest => if is_ws c then skip_ws rest else s
  | EmptyString => s
  end.

Definition is_digit (c : ascii) : bool := ((48 <=? code c) && (code c <=? 57))%N.
Definition digit_value (c : ascii) : N := (code c - 48)%N.

Definition decode_error : exn := Exn JSONDecodeError None.

(** The run of digits at the head of [s], its value and its length. *)
Fixpoint scan_digits (s : string) (v : N) (n : nat) : N * nat * string :=
  match s with
  | String c rest =>
      if is_digit c then scan_digits rest (10 * v + digit_value c)%N (S n)
      else (v, n, s)
  | EmptyString => (v, n, s)
  end.

Definition starts_with (p s : string) : bool := String.prefix p s.

Definition float_follows (s : string) : bool :=
  match s with
  | String c _ => Ascii.eqb c "." || Ascii.eqb c "e" || Ascii.eqb c "E"
  | EmptyString => false
  end.

(** The integer part of a number: an optional minus sign, then a single
    zero or a run of digits that does not start with zero. *)
Definition scan_number (s : string) : outcome (pyval * string) :=
  let '(neg, s1) :=
    match s with
    | String c rest => if Ascii.eqb c "-" then (true, rest) else (false, s)
    | EmptyString => (false, s)
    end in
  match s1 with
  | String c rest =>
      if is_digit c then
        let '(v, n, rest') :=
          if Ascii.eqb c "0" then (0%N, 1%nat, rest) else scan_digits s1 0 0 in
        if float_follows rest' || negb (n <=? max_str_digits)%nat then Unmodelled
        else Returns (PyInt (if neg then - Z.of_N v else Z.of_N v), rest')
      else if neg && starts_with "Infinity" s1 then Unmodelled
      else Raises decode_error
  | EmptyString => Raises decode_error
  end.

Definition unescape (c : ascii) : option ascii :=
  if Ascii.eqb c dq then Some dq
  else if Ascii.eqb c "\" then Some "\"%char
  else if Ascii.eqb c "/" then Some "/"%char
  else if Ascii.eqb c "b" then Some "008"%char
  else if Ascii.eqb c "f" then Some "012"%char
  else if Ascii.eqb c "n" then Some "010"%char
  else if Ascii.eqb c "r" then Some "013"%char
  else if Ascii.eqb c "t" then Some "009"%char
  else None.

(** The rest of a string literal, after its opening quote. *)
Fixpoint scan_string (s : string) (acc : list ascii) : outcome (string * string) :=
  match s with
  | EmptyString => Raises decode_error
  | String c rest =>
      if Ascii.eqb c dq then Returns (string_of_list_ascii (rev acc), rest)
      else if Ascii.eqb c "\" then
        match rest with
        | String e rest' =>
            match unescape e with
            | Some c' => scan_string rest' (c' :: acc)
            | None => if Ascii.eqb e "u" then Unmodelled else Raises decode_error
            end
        | EmptyString => Raises decode_error
        end
      else if (code c <? 32)%N then Raises decode_error
      else scan_string rest (c :: acc)
  end.

Definition expect_word (w : string) (v : pyval) (s : string) : outcome (pyval * string) :=
  if starts_with w s then Returns (v, string_of_list_ascii (drop (String.length w) (list_ascii_of_string s)))
  else Raises decode_error.

(** [scan_once] reads one value; [scan_pairs] the members of an object from
    the first character of a key on, [scan_items] the items of an array.
    [depth] bounds the nesting (CPython stops at its recursion limit). *)
Fixpoint scan_once (fuel depth : nat) (s : string) : outcome (pyval * string) :=
  match fuel with
  | O => Unmodelled
  | S fuel =>
      match s with
      | EmptyString => Raises decode_error
      | String c rest =>
          if Ascii.eqb c dq then
            let* r := scan_string rest [] in Returns (PyStr (fst r), snd r)
          else if Ascii.eqb c "{" then
            match depth with
            | O => Unmodelled
            | S depth =>
                match skip_ws rest with
                | String c' rest' =>
                    if Ascii.eqb c' "}" then Returns (PyDict [], rest')
                    else if Ascii.eqb c' dq then scan_pairs fuel depth rest' []
                    else Raises decode_error
                | EmptyString => Raises decode_error
                end
            end
          else if Ascii.eqb c "[" then
            match depth with
            | O => Unmodelled
            | S depth =>
                match skip_ws rest with
                | String c' rest' =>
                    if Ascii.eqb c' "]" then Returns (PyList [], rest')
                    else scan_items fuel depth (skip_ws rest) []
                | EmptyString => Raises decode_error
                end
            end
          else if Ascii.eqb c "n" then expect_word "null" PyNone s
          else if Ascii.eqb c "t" then expect_word "true" (PyBool true) s
          else if Ascii.eqb c "f" then expect_word "false" (PyBool false) s
          else if is_digit c || Ascii.eqb c "-" then scan_number s
          else if starts_with "NaN" s || starts_with "Infinity" s then Unmodelled
          else Raises decode_error
      end
  end
with scan_pairs (fuel depth : nat) (s : string) (acc : list (string * pyval))
  : outcome (pyval * string) :=
  match fuel with
  | O => Unmodelled
  | S fuel =>
      let* k := scan_string s [] in
      match skip_ws (snd k) with
      | String c rest =>
          if Ascii.eqb c ":" then
            let* v := scan_once fuel depth (skip_ws rest) in
            let acc := dict_set (fst k) (fst v) acc in
            match skip_ws (snd v) with
            | String c' rest' =>
                if Ascii.eqb c' "}" then Returns (PyDict acc, rest')
                else if Ascii.eqb c' "," then
                  match skip_ws rest' with
                  | String c'' rest'' =>
                      if Ascii.eqb c'' dq then scan_pairs fuel depth rest'' acc
                      else Raises decode_error
                  | EmptyString => Raises decode_error
                  end
                else Raises decode_error
            | EmptyString => Raises decode_error
            end
          else Raises decode_error
      | EmptyString => Raises decode_error
      end
  end
with scan_items (fuel depth : nat) (s : string) (acc : list pyval)
  : outcome (pyval * string) :=
  match fuel with
  | O => Unmodelled
  | S fuel =>
      let* v := scan_once fuel depth s in
      match skip_ws (snd v) with
      | String c rest =>
          if Ascii.eqb c "]" then Returns (PyList (acc ++ [fst v]), rest)
          else if Ascii.eqb c "," then scan_items fuel depth (skip_ws rest) (acc ++ [fst v])
          else Raises decode_error
      | EmptyString => Raises decode_error
      end
  end.

Definition max_json_depth : nat := 200.

(** [json.loads(v)] *)
Definition json_loads (v : pyval) : outcome pyval :=
  match v with
  | PyStr s =>
      let* r := scan_once (2 * String.length s + 2) max_json_depth (skip_ws s) in
      match skip_ws (snd r) with
      | EmptyString => Returns (fst r)
      | String _ _ => Raises decode_error
      end
  | _ =>
      Raises (Exn TypeError
                (Some ("the JSON object must be str, bytes or bytearray, not " +:+ type_name v)))
  end.

(** ** [eval]

    Python's expression evaluator on a fragment: decimal integers, names,
    calls without arguments, unary and binary [+] and [-], [*], [/], [**]
    and parentheses, separated by blanks.  A source text of more than
    [max_source] characters, or one that uses anything else, is
    [Unmodelled], and so is a run whose values leave the integers (true
    division by a non-zero number gives a float). *)

Inductive token : Type :=
  | TNum (n : N)
  | TName (x : string)
  | TPlus | TMinus | TStar | TSlash | TPow | TLParen | TRParen.

Inductive lex_state : Type :=
  | LStart
  | LNum (v : N) (zero : bool)     (* in a literal; [zero]: it began with 0 *)
  | LName (x : list ascii).        (* in a name, characters in reverse *)

Definition flush (st : lex_state) : list token :=
  match st with
  | LStart => []
  | LNum v _ => [TNum v]
  | LName x => [TName (string_of_list_ascii (rev x))]
  end.

Definition is_name_start (c : ascii) : bool :=
  ((65 <=? code c) && (code c <=? 90) || (97 <=? code c) && (code c <=? 122)
   || (code c =? 95))%N.

(** The tokens of a source line.  A literal that starts with 0 has only
    zeros ([00] is 0, [01] is refused by the compiler with a text that
    depends on the release, so it is left out). *)
Fixpoint lex (st : lex_state) (s : string) : option (list token) :=
  match s with
  | EmptyString => Some (flush st)
  | String c rest =>
      if is_digit c then
        match st with
        | LStart => lex (LNum (digit_value c) (Ascii.eqb c "0")) rest
        | LNum v zero =>
            if zero && negb (Ascii.eqb c "0") then None
            else lex (LNum (10 * v + digit_value c) zero) rest
        | LName x => lex (LName (c :: x)) rest
        end
      else if is_name_start c then
        match st with
        | LStart => lex (LName [c]) rest
        | LNum _ _ => None
        | LName x => lex (LName (c :: x)) rest
        end
      else if Ascii.eqb c " " || Ascii.eqb c "009" then
        toks ← lex LStart rest; Some (flush st ++ toks)
      else if Ascii.eqb c "+" then toks ← lex LStart rest; Some (flush st ++ TPlus :: toks)
      else if Ascii.eqb c "-" then toks ← lex LStart rest; Some (flush st ++ TMinus :: toks)
      else if Ascii.eqb c "(" then toks ← lex LStart rest; Some (flush st ++ TLParen :: toks)
      else if Ascii.eqb c ")" then toks ← lex LStart rest; Some (flush st ++ TRParen :: toks)
      else if Ascii.eqb c "*" then
        match rest with
        | String "*" rest' => toks ← lex LStart rest'; Some (flush st ++ TPow :: toks)
        | _ => toks ← lex LStart rest; Some (flush st ++ TStar :: toks)
        end
      else if Ascii.eqb c "/" then
        match rest with
        | String "/" _ => None
        | _ => toks ← lex LStart rest; Some (flush st ++ TSlash :: toks)
        end
      else None
  end.

Inductive binop : Type := Add | Sub | Mult | Div | Pow.

Inductive expr : Type :=
  | ENum (n : N)
  | EName (x : string)
  | ECall (f : expr)
  | ENeg (e : expr)
  | EPos (e : expr)
  | EBin (op : binop) (l r : expr).

(** Recursive descent along Python's grammar:
    [expr: term (('+'|'-') term)*], [term: factor (('*'|'/') factor)*],
    [factor: ('+'|'-') factor | power], [power: primary ['**' factor]],
    [primary: atom ('(' ')')*], [atom: NUMBER | NAME | '(' expr ')']. *)
Fixpoint calls_rest (f : expr) (ts : list token) : option (expr * list token) :=
  match ts with
  | TLParen :: TRParen :: ts' => calls_rest (ECall f) ts'
  | TLParen :: _ => None
  | _ => Some (f, ts)
  end.

Fixpoint parse_expr (fuel : nat) (ts : list token) : option (expr * list token) :=
  match fuel with
  | O => None
  | S fuel => r ← parse_term fuel ts; expr_rest fuel r.1 r.2
  end
with expr_rest (fuel : nat) (l : expr) (ts : list token) : option (expr * list token) :=
  match fuel with
  | O => None
  | S fuel =>
      match ts with
      | TPlus :: ts' => r ← parse_term fuel ts'; expr_rest fuel (EBin Add l r.1) r.2
      | TMinus :: ts' => r ← parse_term fuel ts'; expr_rest fuel (EBin Sub l r.1) r.2
      | _ => Some (l, ts)
      end
  end
with parse_term (fuel : nat) (ts : list token) : option (expr * list token) :=
  match fuel with
  | O => None
  | S fuel => r ← parse_factor fuel ts; term_rest fuel r.1 r.2
  end
with term_rest (fuel : nat) (l : expr) (ts : list token) : option (expr * list token) :=
  match fuel with
  | O => None
  | S fuel =>
      match ts with
      | TStar :: ts' => r ← parse_factor fuel ts'; term_rest fuel (EBin Mult l r.1) r.2
      | TSlash :: ts' => r ← parse_factor fuel ts'; term_rest fuel (EBin Div l r.1) r.2
      | _ => Some (l, ts)
      end
  end
with parse_factor (fuel : nat) (ts : list token) : option (expr * list token) :=
  match fuel with
  | O => None
  | S fuel =>
      match ts with
      | TMinus :: ts' => r ← parse_factor fuel ts'; Some (ENeg r.1, r.2)
      | TPlus :: ts' => r ← parse_factor fuel ts'; Some (EPos r.1, r.2)
      | _ => parse_power fuel ts
      end
  end
with parse_power (fuel : nat) (ts : list token) : option (expr * list token) :=
  match fuel with
  | O => None
  | S fuel =>
      b ← parse_primary fuel ts;
      match b.2 with
      | TPow :: ts' => r ← parse_factor fuel ts'; Some (EBin Pow b.1 r.1, r.2)
      | _ => Some b
      end
  end
with parse_primary (fuel : nat) (ts : list token) : option (expr * list token) :=
  match fuel with
  | O => None
  | S fuel => a ← parse_atom fuel ts; calls_rest a.1 a.2
  end
with parse_atom (fuel : nat) (ts : list token) : option (expr * list token) :=
  match fuel with
  | O => None
  | S fuel =>
      match ts with
      | TNum n :: ts' => Some (ENum n, ts')
      | TName x :: ts' => Some (EName x, ts')
      | TLParen :: ts' =>
          r ← parse_expr fuel ts';
          match r.2 with
          | TRParen :: ts'' => Some (r.1, ts'')
          | _ => None
          end
      | _ => None
      end
  end.

(** The objects of the fragment: integers, and the [exit] and [quit]
    objects that [site] adds to the builtins. *)
Inductive object : Type :=
  | OInt (z : Z)
  | OQuitter.

Definition arith (op : binop) (a b : Z) : outcome object :=
  match op with
  | Add => Returns (OInt (a + b))
  | Sub => Returns (OInt (a - b))
  | Mult => Returns (OInt (a * b))
  | Div =>
      if b =? 0 then Raises (Exn ZeroDivisionError (Some "division by zero"))
      else Unmodelled
  | Pow => if 0 <=? b then Returns (OInt (a ^ b)) else Unmodelled
  end.

(** Operands are evaluated left to right, then the operation. *)
Fixpoint eval_expr (e : expr) : outcome object :=
  match e with
  | ENum n => Returns (OInt (Z.of_N n))
  | EName x =>
      if String.eqb x "exit" || String.eqb x "quit" then Returns OQuitter
      else Unmodelled
  | ECall f =>
      let* o := eval_expr f in
      match o with
      | OQuitter => Raises (Exn SystemExit None)
      | OInt _ => Unmodelled
      end
  | ENeg e =>
      let* o := eval_expr e in
      match o with OInt z => Returns (OInt (- z)) | OQuitter => Unmodelled end
  | EPos e =>
      let* o := eval_expr e in
      match o with OInt z => Returns (OInt z) | OQuitter => Unmodelled end
  | EBin op l r =>
      let* a := eval_expr l in
      let* b := eval_expr r in
      match a, b with
      | OInt x, OInt y => arith op x y
      | _, _ => Unmodelled
      end
  end.

(** Keywords that begin a statement and no expression. *)
Definition statement_keywords : list string :=
  ["import"; "from"; "def"; "class"; "return"; "pass"; "del"; "raise";
   "while"; "for"; "with"; "try"; "assert"; "global"; "break"; "continue"].

Definition is_paren (t : token) : bool :=
  match t with TLParen | TRParen => true | _ => false end.

Definition max_source : nat := 100.

(** Compiling the tokens of a whole text and running the code. *)
Definition run_tokens (ts : list token) : outcome pyval :=
  match parse_expr (8 * length ts + 8) ts with
  | Some (e, []) =>
      let* o := eval_expr e in
      match o with
      | OInt z => Returns (PyInt z)
      | OQuitter => Unmodelled
      end
  | _ => Unmodelled
  end.

(** [eval(source)] for a string: the text is compiled as a whole, then
    run.  A text that starts with a statement keyword is a [SyntaxError]. *)
Definition eval_source (source : string) : outcome pyval :=
  if negb (String.length source <=? max_source)%nat then Unmodelled else
  match lex LStart source with
  | None => Unmodelled
  | Some (TName x :: rest) =>
      if bool_decide (x ∈ statement_keywords) then
        if forallb (fun t => negb (is_paren t)) rest
        then Raises (Exn SyntaxError (Some "invalid syntax (<string>, line 1)"))
        else Unmodelled
      else run_tokens (TName x :: rest)
  | Some ts => run_tokens ts
  end.

(** [eval(expression)] *)
Definition py_eval (expression : pyval) : outcome pyval :=
  match expression with
  | PyStr source => eval_source source
  | _ => Raises (Exn TypeError (Some "eval() arg 1 must be a string, bytes or code object"))
  end.

(** ** Calls *)

(** A tool of the registry, applied to the [parameters] of a step, which
    the call unpacks into keyword arguments. *)
Definition tool : Type := pyval -> outcome pyval.

(** Binding the unpacked [parameters] to a method whose only parameter besides [self]
    is [param].  Anything but a dict, a key that is not [param], or no key
    [param], is a [TypeError]. *)
Definition call_method (param : string) (method : pyval -> outcome pyval) : tool :=
  fun parameters =>
    match parameters with
    | PyDict d =>
        if forallb (fun kv => String.eqb kv.1 param) d then
          match dict_get param d with
          | Some v => method v
          | None => Raises (Exn TypeError None)
          end
        else Raises (Exn TypeError None)
    | _ => Raises (Exn TypeError None)
    end.

(** [tool_name in tools]: a list or a dict is not hashable. *)
Definition py_in (tool_name : pyval) (tools : gmap string tool) : outcome bool :=
  match tool_name with
  | PyStr name => Returns (bool_decide (is_Some (tools !! name)))
  | PyList _ | PyDict _ =>
      Raises (Exn TypeError (Some ("unhashable type: '" +:+ type_name tool_name +:+ "'")))
  | _ => Returns false
  end.

(** [tools[tool_name]] *)
Definition tools_getitem (tools : gmap string tool) (tool_name : pyval) : outcome tool :=
  match tool_name with
  | PyStr name =>
      match tools !! name with
      | Some f => Returns f
      | None => Raises (Exn KeyError (py_repr_str name))
      end
  | PyList _ | PyDict _ =>
      Raises (Exn TypeError (Some ("unhashable type: '" +:+ type_name tool_name +:+ "'")))
  | _ => Raises (Exn KeyError None)
  end.

(** ** The completion backend *)

(** What [_call_llm] hands to [requests.post]. *)
Record Request : Type := {
  url : string;
  headers : list (string * string);
  model : string;
  messages : pyval;
  temperature : Q;
}.

(** What the agent reads of the response: [status_code], [text], and the
    result of [json()]. *)
Record Response : Type := {
  status_code : Z;
  text : string;
  json : outcome pyval;
}.

(** Code that talks to the backend threads the requests sent so far. *)
Definition io (A : Type) : Type := list Request -> outcome A * list Request.

Definition ret {A : Type} (m : outcome A) : io A := fun sent => (m, sent).

Definition io_bind {A B : Type} (m : io A) (k : A -> io B) : io B :=
  fun sent =>
    match m sent with
    | (Returns a, sent') => k a sent'
    | (Raises e, sent') => (Raises e, sent')
    | (Unmodelled, sent') => (Unmodelled, sent')
    end.

Notation "'do' x '<-' m ';' k" := (io_bind m (fun x => k))
  (at level 10, x name, m at level 100, k at level 200).

(** ** The agent *)

Record SimpleAgent : Type := {
  api_key : string;
  tools : gmap string tool;
  memory : list pyval;
}.

Definition lines (l : list string) : string := join nl l.

(** *** Tool implementations *)

Definition search_web (query : pyval) : outcome pyval :=
  let* q := py_str query in
  Returns (PyDict [("result", PyStr ("Simulated search results for: " +:+ q));
                   ("source", PyStr "web_search_simulation")]).

Definition calculate (expression : pyval) : outcome pyval :=
  match py_eval expression with
  | Returns result => Returns (PyDict [("result", result)])
  | Raises e =>
      if is_Exception (exn_type e) then
        match exn_str e with
        | Some text => Returns (PyDict [("error", PyStr text)])
        | None => Unmodelled
        end
      else Raises e
  | Unmodelled => Unmodelled
  end.

Definition get_weather (location : pyval) : outcome pyval :=
  Returns (PyDict [("location", location);
                   ("temperature", PyStr ("72" +:+ String "176" "F"));
                   ("conditions", PyStr "Sunny");
                   ("source", PyStr "weather_simulation")]).

(** *** [__init__] *)

Definition builtin_tools : gmap string tool :=
  <["search_web" := call_method "query" search_web]>
  (<["calculate" := call_method "expression" calculate]>
  (<["get_weather" := call_method "location" get_weather]> ∅)).

Definition __init__ (key : option string) (environ : gmap string string) : outcome SimpleAgent :=
  let key :=
    match key with
    | Some (String c k) => Some (String c k)
    | _ => environ !! "OPENAI_API_KEY"
    end in
  match key with
  | Some (String c k) =>
      Returns {| api_key := String c k; tools := builtin_tools; memory := [] |}
  | _ => Raises (Exn ValueError (Some "OpenAI API key is required"))
  end.

Definition memory_append (self : SimpleAgent) (m : pyval) : SimpleAgent :=
  {| api_key := api_key self; tools := tools self; memory := memory self ++ [m] |}.

(** *** [_execute_steps]

    The executor reads the registry of the agent and nothing else. *)

(** The body of the loop of [_execute_steps]: the entry it appends to
    [results] for one step. *)
Definition execute_step (self : SimpleAgent) (step : pyval) : outcome pyval :=
  let* tool_name := py_getitem_key step "tool" in
  let* parameters := py_getitem_key step "parameters" in
  let* present := py_in tool_name (tools self) in
  if present : bool then
    let* f := tools_getitem (tools self) tool_name in
    let* tool_result := f parameters in
    Returns (PyDict [("step", step); ("result", tool_result)])
  else
    let* name := py_str tool_name in
    Returns (PyDict [("step", step);
                     ("error", PyStr ("Tool '" +:+ name +:+ "' not found"))]).

Fixpoint execute_loop (self : SimpleAgent) (steps : list pyval) (results : list pyval)
  : outcome (list pyval) :=
  match steps with
  | [] => Returns results
  | step :: rest =>
      let* entry := execute_step self step in
      execute_loop self rest (results ++ [entry])
  end.

Definition _execute_steps (self : SimpleAgent) (steps : pyval) : outcome pyval :=
  let* items := py_iter steps in
  let* results := execute_loop self items [] in
  Returns (PyDict [("results", PyList results)]).

(** *** The stages that call the backend, and [chat] *)

Section Backend.

(** [requests.post]: the backend's answer to a request, which may depend
    on the requests sent before it. *)
Variable post : list Request -> Request -> outcome Response.

(** The headers and the data of the request of [_call_llm]. *)
Definition llm_request (self : SimpleAgent) (prompt : string) : Request :=
  {| url := "https://api.openai.com/v1/chat/completions";
     headers := [("Authorization", "Bearer " +:+ api_key self);
                 ("Content-Type", "application/json")];
     model := "gpt-3.5-turbo";
     messages := PyList [PyDict [("role", PyStr "user"); ("content", PyStr prompt)]];
     temperature := (1 # 10)%Q |}.

Definition _call_llm (self : SimpleAgent) (prompt : string) : io pyval :=
  fun sent =>
    let request := llm_request self prompt in
    (let* response := post sent request in
     if status_code response =? 200 then
       let* body := json response in
       let* choices := py_getitem_key body "choices" in
       let* choice := py_getitem_index choices 0 in
       let* message := py_getitem_key choice "message" in
       py_getitem_key message "content"
     else Raises (Exn Exception (Some ("API call failed: " +:+ text response))),
     sent ++ [request]).

Definition parse_prompt (message : string) : string :=
  lines [""; "        Parse the following user request into a structured task:";
         "        ";
         "        User request: " +:+ message;
         "        ";
         "        Return a JSON object with the following structure:";
         "        {";
         quoted "            `task_type`: `search` or `calculate` or `weather` or `general`,";
         quoted "            `query`: `the main query or question`,";
         quoted "            `parameters`: {} # any additional parameters";
         "        }";
         "        "].

Definition _parse_task (self : SimpleAgent) (message : string) : io pyval :=
  let prompt := parse_prompt message in
  do response <- _call_llm self prompt;
  ret (json_loads response).

Definition plan_prompt (task : string) : string :=
  lines [""; "        Given the following task, plan the steps needed to complete it:";
         "        ";
         "        Task: " +:+ task;
         "        ";
         "        Return a JSON array of step objects with the following structure:";
         "        [";
         "            {";
         quoted "                `tool`: `name of the tool to use`,";
         quoted "                `parameters`: {} # parameters for the tool";
         "            }";
         "        ]";
         "        "].

Definition _plan_steps (self : SimpleAgent) (task : pyval) : io pyval :=
  do dumped <- ret (json_dumps task);
  let prompt := plan_prompt dumped in
  do response <- _call_llm self prompt;
  ret (json_loads response).

Definition response_prompt (results conversation : string) : string :=
  lines [""; "        Given the following execution results, generate a helpful response for the user:";
         "        ";
         "        Results: " +:+ results;
         "        ";
         "        Prior conversation:";
         "        " +:+ conversation;
         "        "].

Definition _generate_response (self : SimpleAgent) (execution_results : pyval) : io pyval :=
  do results <- ret (json_dumps execution_results);
  do conversation <-
    ret (json_dumps (PyList (drop (length (memory self) - 10) (memory self))));
  let prompt := response_prompt results conversation in
  _call_llm self prompt.

(** The four stages of [chat], on the agent whose memory already holds
    the user message. *)
Definition pipeline (self : SimpleAgent) (message : string) : io pyval :=
  do task <- _parse_task self message;
  do steps <- _plan_steps self task;
  do result <- ret (_execute_steps self steps);
  _generate_response self result.

Definition user_message (message : string) : pyval :=
  PyDict [("role", PyStr "user"); ("content", PyStr message)].

Definition assistant_message (response : pyval) : pyval :=
  PyDict [("role", PyStr "assistant"); ("content", response)].

(** [chat] returns the reply (or the exception that ended the call), the
    agent with its memory as the call left it, and the requests sent.
    [message] is a string, as the signature of the method asks. *)
Definition chat (self : SimpleAgent) (message : string) (sent : list Request)
  : outcome pyval * SimpleAgent * list Request :=
  let self := memory_append self (user_message message) in
  match pipeline self message sent with
  | (Returns response, sent') =>
      (Returns response, memory_append self (assistant_message response), sent')
  | (failure, sent') => (failure, self, sent')
  end.

End Backend.

(** ** Executions *)

(** An agent as [SimpleAgent("sk-test")] builds it. *)
Definition agent0 : SimpleAgent :=
  {| api_key := "sk-test"; tools := builtin_tools; memory := [] |}.

Definition step_of (tool_name : string) (parameters : list (string * pyval)) : pyval :=
  PyDict [("tool", PyStr tool_name); ("parameters", PyDict parameters)].

(** A 200 response whose first choice carries [content]. *)
Definition completion_body (content : pyval) : pyval :=
  PyDict [("choices",
           PyList [PyDict [("index", PyInt 0);
                           ("message", PyDict [("role", PyStr "assistant");
                                               ("content", content)])]])].

Definition completion (content : pyval) : Response :=
  {| status_code := 200;
     text := match json_dumps (completion_body content) with Returns t => t | _ => "" end;
     json := Returns (completion_body content) |}.

Definition calculate_step : pyval := step_of "calculate" [("expression", PyStr "2+2")].
Definition weather_step : pyval := step_of "get_weather" [("location", PyStr "Paris")].
Definition unknown_step : pyval := step_of "translate" [("text", PyStr "bonjour")].
Definition search_step_without_query : pyval := step_of "search_web" [].

Definition calculate_entry : pyval :=
  PyDict [("step", calculate_step); ("result", PyDict [("result", PyInt 4)])].

(** A response with status 500. *)
Definition server_error : Response :=
  {| status_code := 500; text := "Internal Server Error"; json := Raises decode_error |}.

(** A task text with a type that is none of the four. *)
Definition odd_task_text : string :=
  quoted "{`task_type`: `dance`, `query`: `q`, `parameters`: {}}".

Definition odd_task : pyval :=
  PyDict [("task_type", PyStr "dance"); ("query", PyStr "q"); ("parameters", PyDict [])].

(** A backend that answers the requests of one [chat] call in turn. *)
Definition scripted (answers : list Response) : list Request -> Request -> outcome Response :=
  fun sent _ =>
    match answers !! length sent with
    | Some r => Returns r
    | None => Raises (Exn RequestException None)
    end.

(** ** Arithmetic expressions

    Sums, differences and products of decimal integers, written with every
    operation in parentheses. *)

Inductive aop : Type := Plus | Minus | Times.

Inductive aexp : Type :=
  | ALit (n : N)
  | AOp (op : aop) (l r : aexp).

Definition aop_text (op : aop) : string :=
  match op with Plus => "+" | Minus => "-" | Times => "*" end.

Fixpoint render (a : aexp) : string :=
  match a with
  | ALit n => pretty n
  | AOp op l r => "(" +:+ render l +:+ aop_text op +:+ render r +:+ ")"
  end.

(** The number the expression denotes. *)
Fixpoint value (a : aexp) : Z :=
  match a with
  | ALit n => Z.of_N n
  | AOp Plus l r => value l + value r
  | AOp Minus l r => value l - value r
  | AOp Times l r => value l * value r
  end.

(** The tokens and the syntax tree of the text [render a]. *)
Definition aop_token (op : aop) : token :=
  match op with Plus => TPlus | Minus => TMinus | Times => TStar end.

Definition aop_binop (op : aop) : binop :=
  match op with Plus => Add | Minus => Sub | Times => Mult end.

Fixpoint tokens_of (a : aexp) : list token :=
  match a with
  | ALit n => [TNum n]
  | AOp op l r => TLParen :: tokens_of l ++ aop_token op :: tokens_of r ++ [TRParen]
  end.

Fixpoint tree_of (a : aexp) : expr :=
  match a with
  | ALit n => ENum n
  | AOp op l r => EBin (aop_binop op) (tree_of l) (tree_of r)
  end.

(** Fuel that is enough to parse the tokens of [a] as an atom. *)
Fixpoint parse_fuel (a : aexp) : nat :=
  match a with
  | ALit _ => 1
  | AOp _ l r => 7 + Nat.max (parse_fuel l) (parse_fuel r)
  end.

(** A text that does not go on with the literal or the name before it. *)
Definition ends_token (s : string) : Prop :=
  match s with
  | EmptyString => True
  | String c _ => is_digit c = false /\ is_name_start c = false
  end.

(** What the parser looks at around an operand: the token it starts with,
    and the token after it. *)
Definition starts_atom (ts : list token) : bool :=
  match ts with
  | TNum _ :: _ | TName _ :: _ | TLParen :: _ => true
  | _ => false
  end.

Definition ends_factor (ts : list token) : bool :=
  match ts with
  | TLParen :: _ | TPow :: _ => false
  | _ => true
  end.

Definition ends_term (ts : list token) : bool :=
  match ts with
  | TLParen :: _ | TPow :: _ | TStar :: _ | TSlash :: _ => false
  | _ => true
  end.

(** ** The script

    The block under [if __name__ == "__main__"]: it builds the agent from
    the environment, then reads lines and answers them until the line
    [exit], and handles what is raised outside the loop.  The lines it
    prints are kept by their kind and by the value they format; the
    terminal is the list of what the user does at each prompt, and then
    the end of the file. *)

Inductive stdin_event : Type :=
  | Line (s : string)
  | CtrlC.

Inductive printed : Type :=
  | PBanner                      (* the title line *)
  | PRule                        (* the line of dashes *)
  | PPrompt                      (* the prompt of [input] *)
  | PReply (response : pyval)    (* [Agent: {response}] *)
  | PGoodbye                     (* [Agent: Goodbye!] *)
  | PExiting                     (* [Exiting...] *)
  | PError (e : exn)             (* [Error: {e}] *)
  | PErrorEOF.                   (* [Error: {e}] for the [EOFError] of [input] *)

(** [c.lower()] on the code points 0..255: the capital letters of ASCII
    and of Latin-1 (all of 192..222 but the multiplication sign). *)
Definition lower_char (c : ascii) : ascii :=
  let n := code c in
  if ((65 <=? n) && (n <=? 90) || (192 <=? n) && (n <=? 222) && negb (n =? 215))%N
  then ascii_of_N (n + 32) else c.

Fixpoint lower (s : string) : string :=
  match s with
  | EmptyString => EmptyString
  | String c rest => String (lower_char c) (lower rest)
  end.

(** How the [while] loop ends: by [break], or by what it raises. *)
Inductive loop_end : Type :=
  | Break
  | Uncaught (e : exn)
  | EndOfFile
  | NotModelled.

Section Script.

Variable post : list Request -> Request -> outcome Response.

Fixpoint repl (self : SimpleAgent) (stdin : list stdin_event) (sent : list Request)
  : list printed * loop_end * SimpleAgent * list Request :=
  match stdin with
  | [] => ([PPrompt], EndOfFile, self, sent)
  | CtrlC :: _ => ([PPrompt], Uncaught (Exn KeyboardInterrupt None), self, sent)
  | Line user_input :: rest =>
      if String.eqb (lower user_input) "exit" then ([PPrompt; PGoodbye], Break, self, sent)
      else
        match chat post self user_input sent with
        | (Returns response, self', sent') =>
            let '(out, e, self'', sent'') := repl self' rest sent' in
            (PPrompt :: PReply response :: out, e, self'', sent'')
        | (Raises e, self', sent') => ([PPrompt], Uncaught e, self', sent')
        | (Unmodelled, self', sent') => ([PPrompt], NotModelled, self', sent')
        end
  end.

(** What the script prints, and how it ends: [Returns tt] when it runs to
    its last line, [Raises e] when [e] leaves it. *)
Definition main (environ : gmap string string) (stdin : list stdin_event)
  : list printed * outcome unit :=
  match __init__ None environ with
  | Returns agent =>
      let '(out, e, _, _) := repl agent stdin [] in
      let out := PBanner :: PRule :: out in
      match e with
      | Break => (out, Returns tt)
      | EndOfFile => (out ++ [PErrorEOF], Returns tt)
      | Uncaught e =>
          match exn_type e with
          | KeyboardInterrupt => (out ++ [PExiting], Returns tt)
          | c => if is_Exception c then (out ++ [PError e], Returns tt)
                 else (out, Raises e)
          end
      | NotModelled => (out, Unmodelled)
      end
  | Raises e =>
      match exn_type e with
      | KeyboardInterrupt => ([PExiting], Returns tt)
      | c => if is_Exception c then ([PError e], Returns tt) else ([], Raises e)
      end
  | Unmodelled => ([], Unmodelled)
  end.

End Script.



(** The window of the memory that [_generate_response] sends. *)
Definition memory_window (self : SimpleAgent) : list pyval :=
  drop (length (memory self) - 10) (memory self).


(** [m] sends at most [n] requests, each one built by [llm_request] for
    the agent, and exactly [n] when it returns. *)
Definition sends (self : SimpleAgent) (n : nat) {A : Type} (m : io A) : Prop :=
  forall sent,
    exists reqs,
      (m sent).2 = sent ++ reqs /\
      (length reqs <= n)%nat /\
      Forall (fun q => exists prompt, q = llm_request self prompt) reqs /\
      forall a, (m sent).1 = Returns a -> length reqs = n.

(** The sixteen ways of writing [exit]. *)
Definition is_exit_line (s : string) : Prop :=
  exists c1 c2 c3 c4,
    s = String c1 (String c2 (String c3 (String c4 EmptyString))) /\
    (c1 = "e" \/ c1 = "E")%char /\ (c2 = "x" \/ c2 = "X")%char /\
    (c3 = "i" \/ c3 = "I")%char /\ (c4 = "t" \/ c4 = "T")%char.

(** A step that the tools of [__init__] serve whatever the backend: a
    search for a text, the weather of any location, or a tool that the
    registry does not have. *)
Definition simulated_step (step : pyval) : Prop :=
  (exists q, step = step_of "search_web" [("query", PyStr q)]) \/
  (exists v, step = step_of "get_weather" [("location", v)]) \/
  (exists name parameters,
     step = step_of name parameters /\
     name <> "search_web" /\ name <> "calculate" /\ name <> "get_weather").

(** Answers of the backend for the runs below: a response with an empty
    body, a plan that is an object, a plan that leaves the interpreter. *)
Definition empty_body : Response :=
  {| status_code := 200; text := "{}"; json := Returns (PyDict []) |}.

Definition task_text : string :=
  quoted "{`task_type`: `calculate`, `query`: `5*7`, `parameters`: {}}".

Definition object_plan_text : string :=
  quoted "{`tool`: `calculate`, `parameters`: {`expression`: `5*7`}}".

Definition exit_plan_text : string :=
  quoted "[{`tool`: `calculate`, `parameters`: {`expression`: `exit()`}}]".

Definition good_plan_text : string :=
  quoted "[{`tool`: `calculate`, `parameters`: {`expression`: `5*7`}}]".

Definition test_environ : gmap string string := {["OPENAI_API_KEY" := "sk-test"]}.

(** ** The result monad *)

Lemma bind_Returns {A B : Type} (m : outcome A) (k : A -> outcome B) (b : B) :
  bind m k = Returns b -> exists a, m = Returns a /\ k a = Returns b.
Proof. destruct m as [a | e |]; simpl; [eauto | discriminate | discriminate]. Qed.

Lemma bind_Raises_l {A B : Type} (m : outcome A) (k : A -> outcome B) (e : exn) :
  m = Raises e -> bind m k = Raises e.
Proof. intros ->. reflexivity. Qed.

(** Splitting a [bind] that returned, innermost call first. *)
Ltac inv_bind H :=
  let a := fresh "a" in
  let Ha := fresh "Ha" in
  apply bind_Returns in H as (a & Ha & H).

(** ** The step executor *)

Section Executor.

Variable self : SimpleAgent.

(** The loop of [_execute_steps] runs a prefix of the steps, then the
    rest from where the prefix left [results]. *)
Lemma execute_loop_app (pre post : list pyval) (results : list pyval) :
  execute_loop self (pre ++ post) results =
  (let* r := execute_loop self pre results in execute_loop self post r).
Proof.
  revert results. induction pre as [| step pre IH]; intros results; simpl.
  - reflexivity.
  - destruct (execute_step self step) as [entry | e |]; simpl; auto.
Qed.

(** When the loop returns, it has appended one entry per step, each the
    entry of the step at the same place. *)
Lemma execute_loop_entries (steps : list pyval) :
  forall results final,
    execute_loop self steps results = Returns final ->
    exists entries,
      final = results ++ entries /\
      Forall2 (fun step entry => execute_step self step = Returns entry) steps entries.
Proof.
  induction steps as [| step steps IH]; intros results final H; simpl in H.
  - exists []. split; [| constructor]. rewrite app_nil_r. congruence.
  - inv_bind H. apply IH in H as (entries & -> & Hall).
    exists (a :: entries). split.
    + rewrite <- app_assoc. reflexivity.
    + constructor; assumption.
Qed.

(** Every entry carries, under [step], the step it was made for. *)
Lemma execute_step_keeps_step (step entry : pyval) :
  execute_step self step = Returns entry ->
  py_getitem_key entry "step" = Returns step.
Proof.
  unfold execute_step. intros H.
  inv_bind H. inv_bind H. inv_bind H.
  destruct a1.
  - inv_bind H. inv_bind H. injection H as <-. reflexivity.
  - inv_bind H. injection H as <-. reflexivity.
Qed.

Lemma execute_loop_returns (steps : list pyval) :
  forall results,
    Forall (fun step => exists entry, execute_step self step = Returns entry) steps ->
    exists final, execute_loop self steps results = Returns final.
Proof.
  induction steps as [| step steps IH]; intros results Hall; simpl.
  - eauto.
  - inversion Hall as [| ? ? [entry Hstep] Hrest]; subst.
    rewrite Hstep. simpl. apply IH. assumption.
Qed.

(** C1.  The batch of [_execute_steps] keeps the steps: run on the empty
    list it returns the empty batch; whenever it returns, on a list of N
    steps, the batch under [results] has exactly N entries and the i-th
    entry holds the i-th step under [step]; and it does return when each
    step on its own yields an entry. *)
Theorem execute_steps_keeps_every_step :
  _execute_steps self (PyList []) = Returns (PyDict [("results", PyList [])]) /\
  (forall steps r,
     _execute_steps self (PyList steps) = Returns r ->
     exists batch,
       r = PyDict [("results", PyList batch)] /\
       length batch = length steps /\
       forall i step,
         steps !! i = Some step ->
         exists entry,
           batch !! i = Some entry /\ py_getitem_key entry "step" = Returns step) /\
  (forall steps,
     Forall (fun step => exists entry, execute_step self step = Returns entry) steps ->
     exists batch,
       _execute_steps self (PyList steps) = Returns (PyDict [("results", PyList batch)])).
Proof.
  split; [reflexivity |]. split.
  - intros steps r H. unfold _execute_steps in H. simpl in H.
    inv_bind H. injection H as <-.
    apply execute_loop_entries in Ha as (entries & -> & Hall). simpl.
    exists entries. split; [reflexivity |]. split.
    + symmetry. eapply Forall2_length; eassumption.
    + intros i step Hi.
      destruct (Forall2_lookup_l _ _ _ _ _ Hall Hi) as (entry & Hentry & Hstep).
      exists entry. split; [assumption |].
      apply execute_step_keeps_step. assumption.
  - intros steps Hall. unfold _execute_steps. simpl.
    destruct (execute_loop_returns steps [] Hall) as [final ->]. simpl. eauto.
Qed.

End Executor.

(** C3.  A step that names a tool the registry does not hold raises
    nothing: once the steps before it have run, the loop appends for it
    the entry with the error text [Tool '<name>' not found] and goes on with
    the steps after it. *)
Theorem unknown_tool_is_recorded (self : SimpleAgent) (pre post : list pyval)
    (step parameters : pyval) (name : string) (results : list pyval) :
  execute_loop self pre [] = Returns results ->
  py_getitem_key step "tool" = Returns (PyStr name) ->
  py_getitem_key step "parameters" = Returns parameters ->
  tools self !! name = None ->
  let entry :=
    PyDict [("step", step); ("error", PyStr ("Tool '" +:+ name +:+ "' not found"))] in
  execute_step self step = Returns entry /\
  _execute_steps self (PyList (pre ++ step :: post)) =
  (let* final := execute_loop self post (results ++ [entry]) in
   Returns (PyDict [("results", PyList final)])).
Proof.
  intros Hpre Htool Hparams Habsent entry.
  assert (Hstep : execute_step self step = Returns entry).
  { unfold execute_step. rewrite Htool, Hparams. simpl. rewrite Habsent.
    rewrite bool_decide_eq_false_2 by (intros [? ?]; discriminate). reflexivity. }
  split; [assumption |].
  unfold _execute_steps. simpl. rewrite execute_loop_app, Hpre. simpl.
  rewrite Hstep. reflexivity.
Qed.

(** C10.  A step, a dict, without the key [tool] or without the key
    [parameters]: once the steps before it have run, [_execute_steps]
    raises [KeyError] for the first key that is missing.  No batch is
    returned, and no entry is made for the step. *)
Theorem missing_key_raises_KeyError (self : SimpleAgent) (pre post : list pyval)
    (d : list (string * pyval)) (results : list pyval) :
  execute_loop self pre [] = Returns results ->
  dict_get "tool" d = None \/ dict_get "parameters" d = None ->
  _execute_steps self (PyList (pre ++ PyDict d :: post)) =
  Raises (Exn KeyError (Some (match dict_get "tool" d with
                              | None => "'tool'"
                              | Some _ => "'parameters'"
                              end))).
Proof.
  intros Hpre Hmissing.
  unfold _execute_steps. simpl. rewrite execute_loop_app, Hpre. simpl.
  unfold execute_step. simpl.
  destruct (dict_get "tool" d) as [tool_name |] eqn:Htool; simpl.
  - destruct Hmissing as [? | ->]; [discriminate | reflexivity].
  - reflexivity.
Qed.

(** C2, as the code has it.  A step whose tool is in the registry, and the
    call of the tool raises: once the steps before it have run,
    [_execute_steps] raises the same exception.  Nothing catches it, no
    batch is returned and the steps after it do not run. *)
Theorem tool_exception_propagates (self : SimpleAgent) (pre post : list pyval)
    (step parameters : pyval) (name : string) (f : tool) (e : exn)
    (results : list pyval) :
  execute_loop self pre [] = Returns results ->
  py_getitem_key step "tool" = Returns (PyStr name) ->
  py_getitem_key step "parameters" = Returns parameters ->
  tools self !! name = Some f ->
  f parameters = Raises e ->
  _execute_steps self (PyList (pre ++ step :: post)) = Raises e.
Proof.
  intros Hpre Htool Hparams Hf Hraise.
  unfold _execute_steps. simpl. rewrite execute_loop_app, Hpre. simpl.
  unfold execute_step. rewrite Htool, Hparams. simpl. rewrite Hf.
  rewrite bool_decide_eq_true_2 by eauto. simpl. rewrite Hraise. reflexivity.
Qed.

(** ** The backend client, the parser and [chat] *)

Section Pipeline.

Variable post : list Request -> Request -> outcome Response.

(** C9.  [_call_llm] on the response of the backend: with status 200 and
    a body whose first choice has a message with a content, it returns
    that content unchanged; with any other status it raises an exception
    whose text carries the text of the response, and returns nothing. *)
Theorem call_llm_status (self : SimpleAgent) (prompt : string)
    (sent : list Request) (response : Response) :
  post sent (llm_request self prompt) = Returns response ->
  (status_code response = 200 ->
   forall body choice others message content,
     json response = Returns (PyDict body) ->
     dict_get "choices" body = Some (PyList (PyDict choice :: others)) ->
     dict_get "message" choice = Some (PyDict message) ->
     dict_get "content" message = Some content ->
     (_call_llm post self prompt sent).1 = Returns content) /\
  (status_code response <> 200 ->
   (_call_llm post self prompt sent).1 =
   Raises (Exn Exception (Some ("API call failed: " +:+ text response)))).
Proof.
  intros Hpost. unfold _call_llm. simpl. rewrite Hpost. simpl. split.
  - intros -> body choice others message content Hjson Hchoices Hmessage Hcontent.
    simpl. rewrite Hjson. simpl. rewrite Hchoices. simpl.
    rewrite Hmessage. simpl. rewrite Hcontent. reflexivity.
  - intros Hstatus. apply Z.eqb_neq in Hstatus. rewrite Hstatus. reflexivity.
Qed.

(** C4, as the code has it.  [_parse_task] is the decoder applied to the
    text of the backend: what the text decodes to is the task, with no
    check of its shape or of [task_type]; a text that does not decode
    raises the error of the decoder. *)
Theorem parse_task_returns_what_decodes (self : SimpleAgent) (message : string)
    (sent : list Request) (response : pyval) :
  (_call_llm post self (parse_prompt message) sent).1 = Returns response ->
  (forall task, json_loads response = Returns task ->
                (_parse_task post self message sent).1 = Returns task) /\
  (forall e, json_loads response = Raises e ->
             (_parse_task post self message sent).1 = Raises e).
Proof.
  intros Hcall. unfold _parse_task, io_bind, ret.
  destruct (_call_llm post self (parse_prompt message) sent) as [r sent'].
  simpl in Hcall. subst r.
  split; intros ? ->; reflexivity.
Qed.


End Pipeline.

(** ** The arithmetic tool *)




(** C6, as the code has it.  [calculate] hands its input to [eval]: a text
    outside the grammar of numbers, [+ - * /] and parentheses is evaluated
    when it is a Python expression (["2**3"] gives 8), and ["import os"],
    which is none, is not run: it gives the error text of the
    [SyntaxError], in a dict that [calculate] returns. *)
Theorem calculate_evaluates_python :
  calculate (PyStr "2**3") = Returns (PyDict [("result", PyInt 8)]) /\
  calculate (PyStr "import os") =
  Returns (PyDict [("error", PyStr "invalid syntax (<string>, line 1)")]).
Proof. split; vm_compute; reflexivity. Qed.

(** ** Arithmetic through [eval] *)

Lemma append_cons (c : ascii) (s t : string) : String c s +:+ t = String c (s +:+ t).
Proof. reflexivity. Qed.

Lemma append_assoc (s t u : string) : (s +:+ t) +:+ u = s +:+ (t +:+ u).
Proof. induction s as [| c s IH]; [reflexivity |]. rewrite !append_cons, IH. reflexivity. Qed.

Lemma append_empty_r (s : string) : s +:+ "" = s.
Proof. induction s as [| c s IH]; [reflexivity |]. rewrite append_cons, IH. reflexivity. Qed.

(** The decimal digits, as [pretty] writes them. *)
Lemma pretty_N_char_digit (d : N) :
  (d < 10)%N ->
  is_digit (pretty_N_char d) = true /\
  digit_value (pretty_N_char d) = d /\
  Ascii.eqb (pretty_N_char d) "0" = (d =? 0)%N.
Proof.
  intros Hd.
  assert (H : (d = 0 \/ d = 1 \/ d = 2 \/ d = 3 \/ d = 4 \/ d = 5 \/ d = 6 \/
               d = 7 \/ d = 8 \/ d = 9)%N) by lia.
  repeat (destruct H as [-> | H]); try subst d; repeat split; reflexivity.
Qed.

Lemma pretty_N_go_append (x : N) (s t : string) :
  pretty_N_go x s +:+ t = pretty_N_go x (s +:+ t).
Proof.
  revert s. induction (N.lt_wf_0 x) as [x _ IH]; intros s.
  destruct (decide (x = 0)%N) as [-> | Hx].
  - rewrite !pretty_N_go_0. reflexivity.
  - rewrite !(pretty_N_go_step x) by lia.
    rewrite IH by (apply N.div_lt; lia). reflexivity.
Qed.

Lemma lex_digit (st : lex_state) (c : ascii) (s : string) :
  is_digit c = true ->
  lex st (String c s) =
  match st with
  | LStart => lex (LNum (digit_value c) (Ascii.eqb c "0")) s
  | LNum v zero =>
      if zero && negb (Ascii.eqb c "0") then None
      else lex (LNum (10 * v + digit_value c) zero) s
  | LName x => lex (LName (c :: x)) s
  end.
Proof. intros H. simpl. rewrite H. reflexivity. Qed.

(** Reading the digits of a positive number. *)
Lemma lex_pretty_go (x : N) :
  (0 < x)%N -> forall s, lex LStart (pretty_N_go x s) = lex (LNum x false) s.
Proof.
  induction (N.lt_wf_0 x) as [x _ IH]; intros Hx s.
  rewrite pretty_N_go_step by assumption.
  destruct (pretty_N_char_digit (x `mod` 10)%N) as (Hd & Hv & Hz);
    [apply N.mod_lt; lia |].
  destruct (decide (x `div` 10 = 0)%N) as [Hq | Hq].
  - rewrite Hq, pretty_N_go_0, lex_digit by assumption.
    assert (Hx' : (x `mod` 10 = x)%N) by (apply N.mod_small, N.div_small_iff; lia).
    rewrite Hv, Hz, Hx'. replace (x =? 0)%N with false by (symmetry; apply N.eqb_neq; lia).
    reflexivity.
  - rewrite IH; [| apply N.div_lt; lia | apply N.neq_0_lt_0; assumption].
    rewrite lex_digit by assumption. simpl. rewrite Hv.
    f_equal. f_equal. rewrite (N.div_mod x 10) at 3 by lia. reflexivity.
Qed.

Lemma lex_literal (n : N) (s : string) :
  lex LStart (pretty n +:+ s) = lex (LNum n (n =? 0)%N) s.
Proof.
  unfold pretty, pretty_N. destruct (decide (n = 0)%N) as [-> | Hn].
  - reflexivity.
  - rewrite pretty_N_go_append. simpl. rewrite lex_pretty_go by lia.
    replace (n =? 0)%N with false by (symmetry; apply N.eqb_neq; lia). reflexivity.
Qed.

(** A literal ends where the text stops or goes on with an operator, a
    parenthesis or a blank. *)
Lemma lex_ends_token (v : N) (zero : bool) (s : string) :
  ends_token s ->
  lex (LNum v zero) s = (toks ← lex LStart s; Some (TNum v :: toks)).
Proof.
  destruct s as [| c s]; intros H; [reflexivity |].
  destruct H as [Hd Hn]. simpl. rewrite Hd, Hn.
  repeat case_match; try reflexivity; destruct (lex LStart _); reflexivity.
Qed.

Lemma pretty_N_go_head (x : N) :
  (0 < x)%N ->
  forall s, exists c u, pretty_N_go x s = String c u /\ is_digit c = true.
Proof.
  induction (N.lt_wf_0 x) as [x _ IH]; intros Hx s.
  rewrite pretty_N_go_step by assumption.
  destruct (decide (x `div` 10 = 0)%N) as [Hq | Hq].
  - rewrite Hq, pretty_N_go_0. eexists _, _. split; [reflexivity |].
    apply pretty_N_char_digit, N.mod_lt. lia.
  - apply IH; [apply N.div_lt; lia | apply N.neq_0_lt_0; assumption].
Qed.

(** The text of an expression starts with a digit or a parenthesis. *)
Lemma render_head (a : aexp) (t : string) :
  exists c u, render a +:+ t = String c u /\ Ascii.eqb c "*" = false.
Proof.
  destruct a as [n | op l r]; simpl.
  - unfold pretty, pretty_N. destruct (decide (n = 0)%N) as [-> | Hn].
    + eexists _, _. split; reflexivity.
    + destruct (pretty_N_go_head n ltac:(lia) "") as (c & u & -> & Hc).
      exists c, (u +:+ t). split; [reflexivity |].
      destruct (Ascii.eqb_spec c "*") as [-> |]; [discriminate | reflexivity].
  - eexists _, _. split; reflexivity.
Qed.

Lemma lex_render (a : aexp) :
  forall s, ends_token s ->
            lex LStart (render a +:+ s) = (toks ← lex LStart s; Some (tokens_of a ++ toks)).
Proof.
  induction a as [n | op l IHl r IHr]; intros s Hs.
  - simpl render. rewrite lex_literal, lex_ends_token by assumption. reflexivity.
  - simpl render. rewrite !append_assoc.
    change (lex LStart ("(" +:+ render l +:+ aop_text op +:+ render r +:+ ")" +:+ s))
      with (toks ← lex LStart (render l +:+ aop_text op +:+ render r +:+ ")" +:+ s);
            Some (TLParen :: toks)).
    rewrite IHl by (destruct op; split; reflexivity).
    assert (Hop : lex LStart (aop_text op +:+ render r +:+ ")" +:+ s) =
                  (toks ← lex LStart (render r +:+ ")" +:+ s); Some (aop_token op :: toks))).
    { destruct op; try reflexivity.
      destruct (render_head r (")" +:+ s)) as (c & u & Hhead & Hc).
      rewrite Hhead.
      destruct c as [[] [] [] [] [] [] [] []]; try discriminate; reflexivity. }
    rewrite Hop, IHr by (split; reflexivity).
    change (lex LStart (")" +:+ s)) with (toks ← lex LStart s; Some (TRParen :: toks)).
    destruct (lex LStart s) as [toks |]; simpl; [| reflexivity].
    repeat (rewrite <- app_assoc || rewrite <- app_comm_cons). reflexivity.
Qed.

(** The parser, one call at a time. *)
Lemma parse_expr_S fuel ts :
  parse_expr (S fuel) ts = (r ← parse_term fuel ts; expr_rest fuel r.1 r.2).
Proof. reflexivity. Qed.

Lemma parse_term_S fuel ts :
  parse_term (S fuel) ts = (r ← parse_factor fuel ts; term_rest fuel r.1 r.2).
Proof. reflexivity. Qed.

Lemma parse_primary_S fuel ts :
  parse_primary (S fuel) ts = (a ← parse_atom fuel ts; calls_rest a.1 a.2).
Proof. reflexivity. Qed.

Lemma parse_factor_atom fuel ts e rest :
  parse_atom fuel ts = Some (e, rest) ->
  starts_atom ts = true -> ends_factor rest = true ->
  parse_factor (S (S (S fuel))) ts = Some (e, rest).
Proof.
  intros Hatom Hstart Hend.
  assert (Hprimary : parse_primary (S fuel) ts = Some (e, rest)).
  { rewrite parse_primary_S, Hatom. simpl.
    destruct rest as [| [] rest]; try reflexivity; discriminate. }
  assert (Hpower : parse_power (S (S fuel)) ts = Some (e, rest)).
  { change (parse_power (S (S fuel)) ts)
      with (b ← parse_primary (S fuel) ts;
            match b.2 with
            | TPow :: ts' => r ← parse_factor (S fuel) ts'; Some (EBin Pow b.1 r.1, r.2)
            | _ => Some b
            end).
    rewrite Hprimary. simpl.
    destruct rest as [| [] rest]; try reflexivity; discriminate. }
  destruct ts as [| [] ts]; try discriminate; exact Hpower.
Qed.

Lemma term_rest_end fuel e rest :
  ends_term rest = true -> term_rest (S fuel) e rest = Some (e, rest).
Proof. destruct rest as [| [] rest]; try reflexivity; discriminate. Qed.

Lemma expr_rest_end fuel e rest :
  match rest with TPlus :: _ | TMinus :: _ => False | _ => True end ->
  expr_rest (S fuel) e rest = Some (e, rest).
Proof. destruct rest as [| [] rest]; try reflexivity; intros []. Qed.

Lemma term_rest_star fuel l ts :
  term_rest (S fuel) l (TStar :: ts) =
  (r ← parse_factor fuel ts; term_rest fuel (EBin Mult l r.1) r.2).
Proof. reflexivity. Qed.

Lemma expr_rest_plus fuel l ts :
  expr_rest (S fuel) l (TPlus :: ts) =
  (r ← parse_term fuel ts; expr_rest fuel (EBin Add l r.1) r.2).
Proof. reflexivity. Qed.

Lemma expr_rest_minus fuel l ts :
  expr_rest (S fuel) l (TMinus :: ts) =
  (r ← parse_term fuel ts; expr_rest fuel (EBin Sub l r.1) r.2).
Proof. reflexivity. Qed.

Lemma ends_term_factor rest : ends_term rest = true -> ends_factor rest = true.
Proof. destruct rest as [| [] rest]; try reflexivity; discriminate. Qed.

Lemma parse_term_atom fuel ts e rest :
  parse_atom fuel ts = Some (e, rest) ->
  starts_atom ts = true -> ends_term rest = true ->
  parse_term (S (S (S (S fuel)))) ts = Some (e, rest).
Proof.
  intros Hatom Hstart Hend.
  rewrite parse_term_S, (parse_factor_atom fuel ts e rest) by auto using ends_term_factor.
  change (term_rest (S (S (S fuel))) e rest = Some (e, rest)).
  apply term_rest_end. assumption.
Qed.

Lemma starts_atom_tokens (a : aexp) (rest : list token) :
  starts_atom (tokens_of a ++ rest) = true.
Proof. destruct a; reflexivity. Qed.

(** The tokens of an expression parse, as an atom, to its tree. *)
Lemma parse_atom_tokens (a : aexp) :
  forall fuel rest,
    (parse_fuel a <= fuel)%nat ->
    parse_atom fuel (tokens_of a ++ rest) = Some (tree_of a, rest).
Proof.
  induction a as [n | op l IHl r IHr]; intros fuel rest Hfuel; simpl in Hfuel.
  - destruct fuel; [lia | reflexivity].
  - do 7 (destruct fuel as [| fuel]; [lia |]).
    assert (Htokens : tokens_of (AOp op l r) ++ rest =
                      TLParen :: tokens_of l ++ aop_token op :: tokens_of r ++ TRParen :: rest).
    { simpl. f_equal. rewrite <- app_assoc. f_equal. simpl. f_equal.
      rewrite <- app_assoc. reflexivity. }
    rewrite Htokens. clear Htokens.
    set (tail := tokens_of r ++ TRParen :: rest).
    assert (Hl : parse_atom (S fuel) (tokens_of l ++ aop_token op :: tail) =
                 Some (tree_of l, aop_token op :: tail)) by (apply IHl; lia).
    assert (Hr : parse_atom fuel (tokens_of r ++ TRParen :: rest) =
                 Some (tree_of r, TRParen :: rest)) by (apply IHr; lia).
    assert (Hbody : parse_expr (S (S (S (S (S (S fuel))))))
                      (tokens_of l ++ aop_token op :: tail) =
                    Some (tree_of (AOp op l r), TRParen :: rest)).
    { rewrite parse_expr_S, parse_term_S.
      rewrite (parse_factor_atom _ _ _ _ Hl) by
        (try apply starts_atom_tokens; destruct op; reflexivity).
      cbn [mbind option_bind fst snd].
      destruct op; cbn [aop_token aop_binop tree_of].
      - rewrite term_rest_end by reflexivity. cbn [mbind option_bind fst snd].
        rewrite expr_rest_plus. unfold tail at 1.
        rewrite (parse_term_atom _ _ _ _ Hr) by (try apply starts_atom_tokens; reflexivity).
        cbn [mbind option_bind fst snd]. apply expr_rest_end. exact I.
      - rewrite term_rest_end by reflexivity. cbn [mbind option_bind fst snd].
        rewrite expr_rest_minus. unfold tail at 1.
        rewrite (parse_term_atom _ _ _ _ Hr) by (try apply starts_atom_tokens; reflexivity).
        cbn [mbind option_bind fst snd]. apply expr_rest_end. exact I.
      - rewrite term_rest_star. unfold tail at 1.
        rewrite (parse_factor_atom _ _ _ _ Hr) by (try apply starts_atom_tokens; reflexivity).
        cbn [mbind option_bind fst snd].
        rewrite term_rest_end by reflexivity. cbn [mbind option_bind fst snd].
        apply expr_rest_end. exact I. }
    change (parse_atom (S (S (S (S (S (S (S fuel)))))))
              (TLParen :: tokens_of l ++ aop_token op :: tail))
      with (r ← parse_expr (S (S (S (S (S (S fuel)))))) (tokens_of l ++ aop_token op :: tail);
            match r.2 with
            | TRParen :: ts'' => Some (r.1, ts'')
            | _ => None
            end).
    rewrite Hbody. reflexivity.
Qed.

Lemma parse_fuel_tokens (a : aexp) : (parse_fuel a <= 8 * length (tokens_of a))%nat.
Proof.
  induction a as [n | op l IHl r IHr]; cbn [parse_fuel tokens_of length]; [lia |].
  rewrite length_app. cbn [length]. rewrite length_app. cbn [length]. lia.
Qed.

(** The tree of an expression evaluates to its value. *)
Lemma eval_tree (a : aexp) : eval_expr (tree_of a) = Returns (OInt (value a)).
Proof.
  induction a as [n | op l IHl r IHr]; simpl; [reflexivity |].
  rewrite IHl, IHr. destruct op; reflexivity.
Qed.

Lemma run_tokens_of (a : aexp) : run_tokens (tokens_of a) = Returns (PyInt (value a)).
Proof.
  unfold run_tokens.
  assert (Hparse : parse_expr (8 * length (tokens_of a) + 8) (tokens_of a) =
                   Some (tree_of a, [])).
  { replace (8 * length (tokens_of a) + 8)%nat
      with (S (S (S (S (S (8 * length (tokens_of a) + 3))))))%nat by lia.
    pose proof (parse_fuel_tokens a) as Hfuel.
    pose proof (parse_atom_tokens a (8 * length (tokens_of a) + 3) []
                  ltac:(lia)) as Hatom.
    pose proof (starts_atom_tokens a []) as Hstart.
    rewrite app_nil_r in Hatom, Hstart.
    rewrite parse_expr_S, (parse_term_atom _ _ _ _ Hatom Hstart eq_refl).
    reflexivity. }
  rewrite Hparse, eval_tree. reflexivity.
Qed.

Lemma eval_source_render (a : aexp) :
  (String.length (render a) <= max_source)%nat ->
  eval_source (render a) = Returns (PyInt (value a)).
Proof.
  intros Hlen. unfold eval_source.
  apply Nat.leb_le in Hlen. rewrite Hlen. simpl negb. cbv iota.
  pose proof (lex_render a "" I) as Hlex.
  rewrite append_empty_r in Hlex. rewrite Hlex. simpl.
  rewrite app_nil_r.
  pose proof (run_tokens_of a) as Hrun.
  destruct a as [n | op l r]; exact Hrun.
Qed.

(** C7.  [calculate] on arithmetic: ["2+2"] gives 4, ["(3*4)-5"] gives 7,
    and every sum, difference and product of decimal integers, written
    with its parentheses in a text of at most [max_source] characters,
    gives the number it denotes, under [result]. *)
Theorem calculate_arithmetic :
  calculate (PyStr "2+2") = Returns (PyDict [("result", PyInt 4)]) /\
  calculate (PyStr "(3*4)-5") = Returns (PyDict [("result", PyInt 7)]) /\
  forall a : aexp,
    (String.length (render a) <= max_source)%nat ->
    calculate (PyStr (render a)) = Returns (PyDict [("result", PyInt (value a))]).
Proof.
  split; [vm_compute; reflexivity |]. split; [vm_compute; reflexivity |].
  intros a Hlen. unfold calculate, py_eval.
  rewrite eval_source_render by assumption. reflexivity.
Qed.

(** ** The theorems at work *)

(** The executor on a step it can run and a step for a tool it does not
    have: two steps in, two entries out. *)
Lemma execute_steps_keeps_every_step_witness :
  exists batch,
    _execute_steps agent0 (PyList [calculate_step; unknown_step]) =
    Returns (PyDict [("results", PyList batch)]) /\
    length batch = 2%nat /\
    exists entry, batch !! 1%nat = Some entry /\
                  py_getitem_key entry "step" = Returns unknown_step.
Proof.
  destruct (execute_steps_keeps_every_step agent0) as (_ & Hkeeps & _).
  assert (Hrun : exists r, _execute_steps agent0 (PyList [calculate_step; unknown_step]) =
                           Returns r) by (eexists; vm_compute; reflexivity).
  destruct Hrun as [r Hrun].
  destruct (Hkeeps _ _ Hrun) as (batch & -> & Hlen & Hsteps).
  exists batch. split; [exact Hrun |]. split; [exact Hlen |].
  apply (Hsteps 1%nat unknown_step). reflexivity.
Defined.

Lemma unknown_tool_is_recorded_witness :
  tools agent0 !! "translate" = None /\
  _execute_steps agent0 (PyList [calculate_step; unknown_step; weather_step]) =
  (let* final :=
     execute_loop agent0 [weather_step]
       [calculate_entry;
        PyDict [("step", unknown_step); ("error", PyStr "Tool 'translate' not found")]] in
   Returns (PyDict [("results", PyList final)])).
Proof.
  assert (Habsent : tools agent0 !! "translate" = None) by (vm_compute; reflexivity).
  split; [exact Habsent |].
  apply (unknown_tool_is_recorded agent0 [calculate_step] [weather_step] unknown_step
           (PyDict [("text", PyStr "bonjour")]) "translate" [calculate_entry]).
  - vm_compute. reflexivity.
  - reflexivity.
  - reflexivity.
  - exact Habsent.
Defined.

Lemma missing_key_raises_KeyError_witness :
  _execute_steps agent0
    (PyList [calculate_step; PyDict [("tool", PyStr "calculate")]; weather_step]) =
  Raises (Exn KeyError (Some "'parameters'")).
Proof.
  apply (missing_key_raises_KeyError agent0 [calculate_step] [weather_step]
           [("tool", PyStr "calculate")] [calculate_entry]).
  - vm_compute. reflexivity.
  - right. reflexivity.
Defined.

Lemma tool_exception_propagates_witness :
  tools agent0 !! "search_web" = Some (call_method "query" search_web) /\
  call_method "query" search_web (PyDict []) = Raises (Exn TypeError None) /\
  _execute_steps agent0 (PyList [calculate_step; search_step_without_query; weather_step]) =
  Raises (Exn TypeError None).
Proof.
  assert (Htool : tools agent0 !! "search_web" = Some (call_method "query" search_web))
    by (vm_compute; reflexivity).
  split; [exact Htool |]. split; [reflexivity |].
  apply (tool_exception_propagates agent0 [calculate_step] [weather_step]
           search_step_without_query (PyDict []) "search_web"
           (call_method "query" search_web) (Exn TypeError None) [calculate_entry]).
  - vm_compute. reflexivity.
  - reflexivity.
  - reflexivity.
  - exact Htool.
  - reflexivity.
Defined.

(** C2 fails on the code: [search_web] is in the registry, the call
    without its [query] raises [TypeError], and the executor raises it too
    instead of returning a batch with an error entry for the step. *)
Lemma tool_exception_is_not_isolated :
  is_Some (tools agent0 !! "search_web") /\
  _execute_steps agent0 (PyList [search_step_without_query; weather_step]) =
  Raises (Exn TypeError None) /\
  forall batch,
    _execute_steps agent0 (PyList [search_step_without_query; weather_step]) <>
    Returns batch.
Proof.
  assert (Hrun : _execute_steps agent0 (PyList [search_step_without_query; weather_step]) =
                 Raises (Exn TypeError None)) by (vm_compute; reflexivity).
  split; [vm_compute; eauto |]. split; [exact Hrun |].
  intros batch. rewrite Hrun. discriminate.
Qed.

Lemma call_llm_status_witness :
  (_call_llm (scripted [completion (PyStr "The answer is 35.")]) agent0 "hello" []).1 =
  Returns (PyStr "The answer is 35.") /\
  (_call_llm (scripted [server_error]) agent0 "hello" []).1 =
  Raises (Exn Exception (Some "API call failed: Internal Server Error")).
Proof.
  split.
  - apply (proj1 (call_llm_status (scripted [completion (PyStr "The answer is 35.")])
                    agent0 "hello" [] (completion (PyStr "The answer is 35.")) eq_refl)
             eq_refl
             [("choices",
               PyList [PyDict [("index", PyInt 0);
                               ("message", PyDict [("role", PyStr "assistant");
                                                   ("content", PyStr "The answer is 35.")])]])]
             [("index", PyInt 0);
              ("message", PyDict [("role", PyStr "assistant");
                                  ("content", PyStr "The answer is 35.")])]
             []
             [("role", PyStr "assistant"); ("content", PyStr "The answer is 35.")]
             (PyStr "The answer is 35.")); reflexivity.
  - apply (proj2 (call_llm_status (scripted [server_error]) agent0 "hello" []
                    server_error eq_refl)).
    discriminate.
Defined.

Lemma parse_task_returns_what_decodes_witness :
  (_call_llm (scripted [completion (PyStr odd_task_text)]) agent0 (parse_prompt "hello") []).1 =
  Returns (PyStr odd_task_text) /\
  json_loads (PyStr odd_task_text) = Returns odd_task /\
  (_parse_task (scripted [completion (PyStr odd_task_text)]) agent0 "hello" []).1 =
  Returns odd_task.
Proof.
  assert (Hcall : (_call_llm (scripted [completion (PyStr odd_task_text)]) agent0
                     (parse_prompt "hello") []).1 = Returns (PyStr odd_task_text))
    by reflexivity.
  assert (Hloads : json_loads (PyStr odd_task_text) = Returns odd_task)
    by (vm_compute; reflexivity).
  split; [exact Hcall |]. split; [exact Hloads |].
  apply (proj1 (parse_task_returns_what_decodes _ agent0 "hello" [] _ Hcall)).
  exact Hloads.
Defined.

(** C4 fails on the code: the backend answers with a task whose type is
    none of the four, or with a task without a type, and [_parse_task]
    returns it. *)
Lemma parse_task_does_not_validate :
  (_parse_task (scripted [completion (PyStr odd_task_text)]) agent0 "hello" []).1 =
  Returns odd_task /\
  (_parse_task (scripted [completion (PyStr (quoted "{`query`: `q`}"))]) agent0 "hello" []).1 =
  Returns (PyDict [("query", PyStr "q")]).
Proof. split; vm_compute; reflexivity. Qed.



(** C6 fails on the code: ["2**3"] is not in the grammar of numbers,
    [+ - * /] and parentheses, and [calculate] raises nothing: it returns
    the result 8. *)
Lemma calculate_accepts_power :
  calculate (PyStr "2**3") = Returns (PyDict [("result", PyInt 8)]) /\
  forall e, calculate (PyStr "2**3") <> Raises e.
Proof.
  assert (Hpow : calculate (PyStr "2**3") = Returns (PyDict [("result", PyInt 8)]))
    by (vm_compute; reflexivity).
  split; [exact Hpow |]. intros e. rewrite Hpow. discriminate.
Qed.

Lemma calculate_arithmetic_witness :
  (String.length (render (AOp Minus (AOp Times (ALit 3) (ALit 4)) (ALit 5))) <= max_source)%nat /\
  render (AOp Minus (AOp Times (ALit 3) (ALit 4)) (ALit 5)) = "((3*4)-5)" /\
  calculate (PyStr "((3*4)-5)") = Returns (PyDict [("result", PyInt 7)]).
Proof.
  assert (Hlen : (String.length (render (AOp Minus (AOp Times (ALit 3) (ALit 4)) (ALit 5)))
                  <= max_source)%nat) by (vm_compute; lia).
  split; [exact Hlen |]. split; [reflexivity |].
  exact (proj2 (proj2 calculate_arithmetic) _ Hlen).
Defined.

(** The scenario of the specification: the backend answers with a task,
    a plan of one step and a reply; [chat] returns the reply and the
    memory gains the user message and the reply. *)
Example chat_scenario :
  let backend :=
    scripted
      [completion (PyStr (quoted "{`task_type`: `calculate`, `query`: `5*7`, `parameters`: {}}"));
       completion (PyStr (quoted "[{`tool`: `calculate`, `parameters`: {`expression`: `5*7`}}]"));
       completion (PyStr "The answer is 35.")] in
  let r := chat backend agent0 "What's 5 * 7?" [] in
  r.1.1 = Returns (PyStr "The answer is 35.") /\
  memory r.1.2 = [user_message "What's 5 * 7?"; assistant_message (PyStr "The answer is 35.")] /\
  length r.2 = 3%nat.
Proof. vm_compute. auto. Qed.

(** When the backend fails at the first stage, [chat] raises and the
    memory holds the user message alone. *)
Example chat_backend_failure :
  let r := chat (scripted [server_error]) agent0 "hello" [] in
  r.1.1 = Raises (Exn Exception (Some "API call failed: Internal Server Error")) /\
  memory r.1.2 = [user_message "hello"].
Proof. vm_compute. auto. Qed.

(** A reply that is no JSON makes the decoder raise; an empty plan gives
    an empty batch. *)
Example parse_task_not_json :
  (_parse_task (scripted [completion (PyStr "I cannot help with that.")]) agent0 "hello" []).1 =
  Raises decode_error.
Proof. vm_compute. reflexivity. Qed.

Example execute_empty_plan :
  _execute_steps agent0 (PyList []) = Returns (PyDict [("results", PyList [])]).
Proof. reflexivity. Qed.

(** The constructor takes the key from its argument or from the
    environment, and refuses to build an agent without one. *)
Example init_with_key : __init__ (Some "sk-test") ∅ = Returns agent0.
Proof. reflexivity. Qed.

Example init_without_key :
  __init__ None ∅ = Raises (Exn ValueError (Some "OpenAI API key is required")).
Proof. reflexivity. Qed.

(** * Beyond the claims *)

(** ** The constructor *)

(** X1.  The constructor and the key: a key given and not empty is the
    key of the agent, whatever the environment holds; without one, the key
    is the value of [OPENAI_API_KEY]; with neither, or with empty ones, it
    raises [ValueError].  An agent it returns has a key that is not empty,
    an empty memory, and the tools [search_web], [calculate] and
    [get_weather], no other. *)
Theorem init_chooses_key (key : option string) (environ : gmap string string) :
  (forall k, k <> "" -> key = Some k ->
             __init__ key environ =
             Returns {| api_key := k; tools := builtin_tools; memory := [] |}) /\
  (forall k, key = None \/ key = Some "" ->
             environ !! "OPENAI_API_KEY" = Some k -> k <> "" ->
             __init__ key environ =
             Returns {| api_key := k; tools := builtin_tools; memory := [] |}) /\
  (key = None \/ key = Some "" ->
   environ !! "OPENAI_API_KEY" = None \/ environ !! "OPENAI_API_KEY" = Some "" ->
   __init__ key environ = Raises (Exn ValueError (Some "OpenAI API key is required"))) /\
  (forall self, __init__ key environ = Returns self ->
                api_key self <> "" /\ memory self = [] /\
                dom (tools self) = {["search_web"; "calculate"; "get_weather"]}).
Proof.
  unfold __init__. split; [| split; [| split]].
  - intros k Hk ->. destruct k; [congruence | reflexivity].
  - intros k [-> | ->] -> Hk; destruct k; congruence.
  - intros [-> | ->] [-> | ->]; reflexivity.
  - intros self Hself.
    assert (Hshape : exists c k, self = {| api_key := String c k; tools := builtin_tools;
                                            memory := [] |}).
    { destruct key as [[| c k] |]; destruct (environ !! "OPENAI_API_KEY") as [[| c' k'] |];
        simplify_eq; eauto. }
    destruct Hshape as (c & k & ->). simpl. split; [discriminate |]. split; [reflexivity |].
    unfold builtin_tools. rewrite !dom_insert_L, dom_empty_L. set_solver.
Qed.

(** ** The backend client *)

(** X2.  A response with status 200 that is not a completion: when its
    body does not decode, [_call_llm] raises what the decoder raised; when
    the body has no [choices], it raises [KeyError]; when [choices] is
    empty, it raises [IndexError].  It returns nothing in these cases. *)
Theorem call_llm_malformed_body (post : list Request -> Request -> outcome Response)
    (self : SimpleAgent) (prompt : string) (sent : list Request) (response : Response) :
  post sent (llm_request self prompt) = Returns response ->
  status_code response = 200 ->
  (forall e, json response = Raises e -> (_call_llm post self prompt sent).1 = Raises e) /\
  (forall body, json response = Returns (PyDict body) ->
                dict_get "choices" body = None ->
                (_call_llm post self prompt sent).1 =
                Raises (Exn KeyError (Some "'choices'"))) /\
  (forall body, json response = Returns (PyDict body) ->
                dict_get "choices" body = Some (PyList []) ->
                (_call_llm post self prompt sent).1 =
                Raises (Exn IndexError (Some "list index out of range"))).
Proof.
  intros Hpost Hstatus. unfold _call_llm. simpl. rewrite Hpost. simpl. rewrite Hstatus.
  simpl. split; [| split].
  - intros e ->. reflexivity.
  - intros body -> Hchoices. simpl. rewrite Hchoices. reflexivity.
  - intros body -> Hchoices. simpl. rewrite Hchoices. reflexivity.
Qed.

(** ** Requests *)

Lemma llm_request_memory_append (self : SimpleAgent) (m : pyval) (prompt : string) :
  llm_request (memory_append self m) prompt = llm_request self prompt.
Proof. reflexivity. Qed.

Lemma call_llm_sent post (self : SimpleAgent) (prompt : string) (sent : list Request) :
  (_call_llm post self prompt sent).2 = sent ++ [llm_request self prompt].
Proof. reflexivity. Qed.

Lemma sends_ret (self : SimpleAgent) {A : Type} (m : outcome A) : sends self 0 (ret m).
Proof.
  intros sent. exists []. rewrite app_nil_r. repeat split; auto.
Qed.

Lemma sends_call_llm post (self : SimpleAgent) (prompt : string) :
  sends self 1 (_call_llm post self prompt).
Proof.
  intros sent. exists [llm_request self prompt]. repeat split; eauto.
Qed.

Lemma sends_bind (self : SimpleAgent) {A B : Type} (n1 n2 : nat) (m : io A) (k : A -> io B) :
  sends self n1 m -> (forall a, sends self n2 (k a)) ->
  sends self (n1 + n2) (io_bind m k).
Proof.
  intros Hm Hk sent. unfold io_bind.
  destruct (Hm sent) as (reqs1 & Hsent1 & Hlen1 & Hall1 & Hret1).
  destruct (m sent) as [[a | e |] sent1] eqn:Hrun; simpl in *; subst sent1.
  - destruct (Hk a (sent ++ reqs1)) as (reqs2 & Hsent2 & Hlen2 & Hall2 & Hret2).
    exists (reqs1 ++ reqs2). rewrite Hsent2, app_assoc, length_app.
    specialize (Hret1 a eq_refl).
    repeat split; [lia | apply Forall_app; auto |].
    intros b Hb. rewrite (Hret2 b Hb). lia.
  - exists reqs1. repeat split; [lia | assumption | discriminate].
  - exists reqs1. repeat split; [lia | assumption | discriminate].
Qed.

Lemma sends_parse_task post (self : SimpleAgent) (message : string) :
  sends self 1 (_parse_task post self message).
Proof.
  unfold _parse_task. apply (sends_bind self 1 0); [apply sends_call_llm |].
  intros response. apply sends_ret.
Qed.



Lemma parse_task_sent post (self : SimpleAgent) (message : string) (sent : list Request) :
  (_parse_task post self message sent).2 = sent ++ [llm_request self (parse_prompt message)].
Proof.
  unfold _parse_task, io_bind, ret.
  rewrite (surjective_pairing (_call_llm post self (parse_prompt message) sent)).
  rewrite call_llm_sent.
  destruct ((_call_llm post self (parse_prompt message) sent).1); reflexivity.
Qed.


(** X4.  When the first stage fails, [chat] raises its exception at once:
    one request has been sent, the stages after it have not run, and the
    memory holds the user message and no reply. *)
Theorem chat_stops_at_failed_parse (post : list Request -> Request -> outcome Response)
    (self : SimpleAgent) (message : string) (sent : list Request) (e : exn) :
  let self1 := memory_append self (user_message message) in
  (_parse_task post self1 message sent).1 = Raises e ->
  chat post self message sent =
  (Raises e, self1, sent ++ [llm_request self (parse_prompt message)]).
Proof.
  intros self1 Hparse. unfold chat, pipeline. fold self1.
  pose proof (parse_task_sent post self1 message sent) as Hsent.
  unfold io_bind at 1.
  destruct (_parse_task post self1 message sent) as [r sent1]. simpl in *. subst.
  reflexivity.
Qed.

(** X5.  The plan is not checked to be a list: when the backend answers
    the planning request with an object that is not empty, the loop of
    [_execute_steps] draws its keys, which are strings and have no item
    [tool], and [chat] raises [TypeError] after two requests. *)
Theorem chat_object_plan_raises (post : list Request -> Request -> outcome Response)
    (self : SimpleAgent) (message : string) (sent sent1 sent2 : list Request)
    (task : pyval) (k : string) (v : pyval) (d : list (string * pyval)) :
  let self1 := memory_append self (user_message message) in
  _parse_task post self1 message sent = (Returns task, sent1) ->
  _plan_steps post self1 task sent1 = (Returns (PyDict ((k, v) :: d)), sent2) ->
  chat post self message sent = (Raises (Exn TypeError None), self1, sent2).
Proof.
  intros self1 Hparse Hplan. unfold chat, pipeline. fold self1.
  unfold io_bind at 1. rewrite Hparse.
  unfold io_bind at 1. rewrite Hplan.
  reflexivity.
Qed.

(** ** More on the step executor *)

(** X6.  [_execute_steps] on what is not a list: a dict or a string that
    is not empty raises [TypeError] at its first item; [None], a boolean or
    an integer raises [TypeError], not being iterable; the empty dict and
    the empty string give the empty batch. *)
Theorem execute_steps_not_a_list (self : SimpleAgent) :
  (forall k v d, _execute_steps self (PyDict ((k, v) :: d)) = Raises (Exn TypeError None)) /\
  (forall c s, _execute_steps self (PyStr (String c s)) = Raises (Exn TypeError None)) /\
  (forall v, v = PyNone \/ (exists b, v = PyBool b) \/ (exists z, v = PyInt z) ->
             _execute_steps self v =
             Raises (Exn TypeError (Some ("'" +:+ type_name v +:+ "' object is not iterable")))) /\
  _execute_steps self (PyDict []) = Returns (PyDict [("results", PyList [])]) /\
  _execute_steps self (PyStr "") = Returns (PyDict [("results", PyList [])]).
Proof.
  repeat split; try reflexivity.
  intros v [-> | [[b ->] | [z ->]]]; reflexivity.
Qed.



(** X8.  A tool name that is not a string: [None], a boolean or a number
    is never in the registry, and the step gets the error entry with the
    text of the value in the message; a list or a dict is not hashable, and
    the test [tool_name in self.tools] raises [TypeError]. *)
Theorem tool_name_not_a_string (self : SimpleAgent) (step tool_name parameters : pyval) :
  py_getitem_key step "tool" = Returns tool_name ->
  py_getitem_key step "parameters" = Returns parameters ->
  (forall name,
     tool_name = PyNone \/ (exists b, tool_name = PyBool b) \/ (exists z, tool_name = PyInt z) ->
     py_str tool_name = Returns name ->
     execute_step self step =
     Returns (PyDict [("step", step);
                      ("error", PyStr ("Tool '" +:+ name +:+ "' not found"))])) /\
  ((exists l, tool_name = PyList l) \/ (exists d, tool_name = PyDict d) ->
   execute_step self step =
   Raises (Exn TypeError (Some ("unhashable type: '" +:+ type_name tool_name +:+ "'")))).
Proof.
  intros Htool Hparams. unfold execute_step. rewrite Htool, Hparams. simpl. split.
  - intros name [-> | [[b ->] | [z ->]]] Hname.
    + injection Hname as <-. reflexivity.
    + destruct b; injection Hname as <-; reflexivity.
    + cbn [py_in py_str bind] in *. rewrite Hname. reflexivity.
  - intros [[l ->] | [d ->]]; reflexivity.
Qed.

(** ** Calling a tool *)


(** ** More on the arithmetic tool *)

(** X10.  An expression that is not a string: [eval] refuses it with a
    [TypeError], and [calculate] returns its text under [error]. *)
Theorem calculate_not_a_string (expression : pyval) :
  (forall s, expression <> PyStr s) ->
  calculate expression =
  Returns (PyDict [("error", PyStr "eval() arg 1 must be a string, bytes or code object")]).
Proof.
  intros Hnot. destruct expression; try reflexivity. destruct (Hnot s). reflexivity.
Qed.

(** X11.  What [calculate] returns is recorded as the result of its step,
    also when it is an error text: the entry has the dict of [calculate]
    under [result], and the loop goes on with the steps after it. *)
Theorem calculate_outcome_is_a_result (self : SimpleAgent) (pre post : list pyval)
    (expression m : pyval) (results : list pyval) :
  tools self !! "calculate" = Some (call_method "expression" calculate) ->
  execute_loop self pre [] = Returns results ->
  calculate expression = Returns m ->
  let step := step_of "calculate" [("expression", expression)] in
  _execute_steps self (PyList (pre ++ step :: post)) =
  (let* final := execute_loop self post (results ++ [PyDict [("step", step); ("result", m)]]) in
   Returns (PyDict [("results", PyList final)])).
Proof.
  intros Htool Hpre Hcalc step.
  unfold _execute_steps. simpl. rewrite execute_loop_app, Hpre. simpl.
  unfold execute_step. simpl. rewrite Htool.
  rewrite bool_decide_eq_true_2 by eauto. simpl. rewrite Hcalc. reflexivity.
Qed.

Lemma run_tokens_division_by_zero (a : aexp) :
  run_tokens (tokens_of a ++ [TSlash; TNum 0]) =
  Raises (Exn ZeroDivisionError (Some "division by zero")).
Proof.
  unfold run_tokens.
  assert (Hparse : parse_expr (8 * length (tokens_of a ++ [TSlash; TNum 0]) + 8)
                     (tokens_of a ++ [TSlash; TNum 0]) =
                   Some (EBin Div (tree_of a) (ENum 0), [])).
  { rewrite length_app. cbn [length].
    replace (8 * (length (tokens_of a) + 2) + 8)%nat
      with (S (S (S (S (S (S (S (8 * length (tokens_of a) + 17))))))))%nat by lia.
    set (f := (8 * length (tokens_of a) + 17)%nat).
    pose proof (parse_fuel_tokens a) as Hfuel.
    assert (Hatom : parse_atom (S (S f)) (tokens_of a ++ [TSlash; TNum 0]) =
                    Some (tree_of a, [TSlash; TNum 0]))
      by (apply parse_atom_tokens; lia).
    assert (Hzero : parse_factor (S (S (S (S f)))) [TNum 0] = Some (ENum 0, []))
      by (apply parse_factor_atom; reflexivity).
    rewrite parse_expr_S, parse_term_S.
    rewrite (parse_factor_atom _ _ _ _ Hatom (starts_atom_tokens a _) eq_refl).
    cbn [mbind option_bind fst snd].
    change (term_rest (S (S (S (S (S f))))) (tree_of a) [TSlash; TNum 0])
      with (r ← parse_factor (S (S (S (S f)))) [TNum 0];
            term_rest (S (S (S (S f)))) (EBin Div (tree_of a) r.1) r.2).
    rewrite Hzero. reflexivity. }
  rewrite Hparse. simpl. rewrite eval_tree. reflexivity.
Qed.

(** X12.  Dividing by zero, whatever is divided: for every arithmetic
    expression of [aexp], the text of the expression followed by [/0]
    (at most [max_source] characters) gives the error text
    [division by zero], in a dict that [calculate] returns. *)
Theorem calculate_division_by_zero (a : aexp) :
  (String.length (render a +:+ "/0") <= max_source)%nat ->
  calculate (PyStr (render a +:+ "/0")) =
  Returns (PyDict [("error", PyStr "division by zero")]).
Proof.
  intros Hlen. unfold calculate, py_eval, eval_source.
  apply Nat.leb_le in Hlen. rewrite Hlen. simpl negb. cbv iota.
  rewrite (lex_render a "/0") by (split; reflexivity).
  change (lex LStart "/0") with (Some [TSlash; TNum 0]).
  cbn [mbind option_bind].
  pose proof (run_tokens_division_by_zero a) as Hrun.
  destruct a as [n | op l r]; cbn [tokens_of app] in *; rewrite Hrun; reflexivity.
Qed.

(** ** The memory window *)

Lemma last_drop {A : Type} (l : list A) (n : nat) :
  (n < length l)%nat -> last (drop n l) = last l.
Proof.
  revert n. induction l as [| x l IH]; intros n Hn; simpl in Hn; [lia |].
  destruct n as [| n]; [reflexivity |].
  simpl drop. rewrite IH by lia.
  destruct l as [| y l]; [simpl in Hn; lia | reflexivity].
Qed.

(** X13.  The conversation in the prompt of [_generate_response] is the
    window of the memory: its last ten entries, or all of them when there
    are fewer; and after the user message has been appended, the window
    ends with it. *)
Theorem generate_response_window (post : list Request -> Request -> outcome Response)
    (self : SimpleAgent) (results : pyval) (sent : list Request) (r c : string) :
  json_dumps results = Returns r ->
  json_dumps (PyList (memory_window self)) = Returns c ->
  (_generate_response post self results sent).2 =
  sent ++ [llm_request self (response_prompt r c)] /\
  length (memory_window self) = Nat.min 10 (length (memory self)) /\
  memory_window self `suffix_of` memory self /\
  forall m, last (memory_window (memory_append self m)) = Some m.
Proof.
  intros Hresults Hwindow. split; [| split; [| split]].
  - unfold _generate_response, io_bind, ret. rewrite Hresults.
    fold (memory_window self). rewrite Hwindow. reflexivity.
  - unfold memory_window. rewrite length_drop. lia.
  - unfold memory_window. apply suffix_drop.
  - intros m. unfold memory_window. simpl memory.
    rewrite last_drop by (rewrite length_app; simpl; lia).
    apply last_snoc.
Qed.

(** ** The script *)


Section Session.

Variable post : list Request -> Request -> outcome Response.


(** X15.  Once the loop has ended, by [exit], by Ctrl-C or by a turn that
    failed, what the user would have typed next changes nothing: not what
    is printed, nor the memory, nor the requests. *)
Theorem session_ignores_what_follows (pre : list stdin_event) :
  forall rest self sent,
    (repl post self pre sent).1.1.2 <> EndOfFile ->
    repl post self (pre ++ rest) sent = repl post self pre sent.
Proof.
  induction pre as [| [user_input |] pre IH]; intros rest self sent Hend; simpl in *.
  - congruence.
  - destruct (String.eqb (lower user_input) "exit"); [reflexivity |].
    destruct (chat post self user_input sent) as [[[response | e |] self'] sent'];
      try reflexivity.
    specialize (IH rest self' sent').
    destruct (repl post self' pre sent') as [[[out e] self''] sent''].
    simpl in *. rewrite IH by assumption. reflexivity.
  - reflexivity.
Qed.

Lemma lower_char_exit (c : ascii) :
  (lower_char c = "e" <-> c = "e" \/ c = "E")%char /\
  (lower_char c = "x" <-> c = "x" \/ c = "X")%char /\
  (lower_char c = "i" <-> c = "i" \/ c = "I")%char /\
  (lower_char c = "t" <-> c = "t" \/ c = "T")%char.
Proof.
  destruct c as [[] [] [] [] [] [] [] []];
    repeat split; intros H; vm_compute in H;
    try discriminate H; try (destruct H as [H | H]; discriminate H); auto.
Qed.

Lemma lower_exit (s : string) : lower s = "exit" <-> is_exit_line s.
Proof.
  split.
  - destruct s as [| c1 [| c2 [| c3 [| c4 [| c5 s]]]]]; try discriminate.
    simpl. intros [= H1 H2 H3 H4].
    exists c1, c2, c3, c4. split; [reflexivity |].
    split; [apply lower_char_exit; assumption |].
    split; [apply lower_char_exit; assumption |].
    split; apply lower_char_exit; assumption.
  - intros (c1 & c2 & c3 & c4 & -> & H1 & H2 & H3 & H4). simpl.
    apply lower_char_exit in H1, H2, H3, H4. congruence.
Qed.

(** X16.  A line ends the session with the farewell, and without a
    request, exactly when it is [exit] in some mix of capitals and small
    letters: the line is not stripped, so a blank before or after it makes
    it a message for [chat]. *)
Theorem exit_ends_the_session (self : SimpleAgent) (s : string)
    (rest : list stdin_event) (sent : list Request) :
  repl post self (Line s :: rest) sent = ([PPrompt; PGoodbye], Break, self, sent) <->
  is_exit_line s.
Proof.
  rewrite <- lower_exit. simpl.
  destruct (String.eqb_spec (lower s) "exit") as [Heq | Hne].
  - split; auto.
  - split; [| contradiction].
    destruct (chat post self s sent) as [[[response | e |] self'] sent'];
      try discriminate.
    destruct (repl post self' rest sent') as [[[out e] self''] sent''].
    discriminate.
Qed.

(** X17.  The script catches every [Exception] and [KeyboardInterrupt]:
    an exception that leaves it is neither (it is a [SystemExit], which an
    evaluated expression can raise). *)
Theorem main_lets_out_no_Exception (environ : gmap string string)
    (stdin : list stdin_event) (e : exn) :
  (main post environ stdin).2 = Raises e ->
  is_Exception (exn_type e) = false /\ exn_type e <> KeyboardInterrupt.
Proof.
  unfold main.
  destruct (__init__ None environ) as [agent | e0 |].
  - destruct (repl post agent stdin []) as [[[out e'] self'] sent'].
    destruct e' as [| e1 | |]; try discriminate.
    destruct e1 as [[] text]; simpl; intros [= <-]; split; discriminate || reflexivity.
  - destruct e0 as [[] text]; simpl; intros [= <-]; split; discriminate || reflexivity.
  - discriminate.
Qed.

(** X18.  Without a key in the environment the script prints the error of
    the constructor and ends: no banner, no prompt, nothing read. *)
Theorem main_without_key (environ : gmap string string) (stdin : list stdin_event) :
  environ !! "OPENAI_API_KEY" = None \/ environ !! "OPENAI_API_KEY" = Some "" ->
  main post environ stdin =
  ([PError (Exn ValueError (Some "OpenAI API key is required"))], Returns tt).
Proof.
  intros Hkey. unfold main, __init__. destruct Hkey as [-> | ->]; reflexivity.
Qed.

End Session.

(** ** Plans over the simulated tools *)

Lemma simulated_step_entry (self : SimpleAgent) (step : pyval) :
  tools self = builtin_tools -> simulated_step step ->
  exists entry, execute_step self step = Returns entry.
Proof.
  intros Htools [[q ->] | [[v ->] | (name & parameters & -> & H1 & H2 & H3)]];
    unfold execute_step; rewrite Htools; simpl.
  - eexists. vm_compute. reflexivity.
  - eexists. vm_compute. reflexivity.
  - assert (Habsent : builtin_tools !! name = None).
    { unfold builtin_tools. rewrite !lookup_insert_ne by congruence. apply lookup_empty. }
    rewrite Habsent. rewrite bool_decide_eq_false_2 by (intros [? ?]; discriminate).
    simpl. eauto.
Qed.

(** X19.  A plan made of searches for a text, of weather lookups and of
    tools that the registry does not have always gives a batch, with one
    entry per step, on an agent with the tools of [__init__]. *)
Theorem simulated_plan_returns (self : SimpleAgent) (steps : list pyval) :
  tools self = builtin_tools ->
  Forall simulated_step steps ->
  exists batch,
    _execute_steps self (PyList steps) = Returns (PyDict [("results", PyList batch)]) /\
    length batch = length steps.
Proof.
  intros Htools Hsteps.
  assert (Hentries : Forall (fun step => exists entry, execute_step self step = Returns entry)
                       steps).
  { eapply Forall_impl; [exact Hsteps |]. intros step. apply simulated_step_entry, Htools. }
  destruct (execute_loop_returns self steps [] Hentries) as [final Hfinal].
  exists final. unfold _execute_steps. simpl. rewrite Hfinal. simpl.
  split; [reflexivity |].
  apply execute_loop_entries in Hfinal as (entries & -> & Hall).
  simpl. symmetry. eapply Forall2_length. exact Hall.
Qed.

(** ** The further theorems at work *)

Lemma init_chooses_key_witness :
  __init__ (Some "sk-test") test_environ = Returns agent0 /\
  __init__ None test_environ = Returns agent0 /\
  __init__ (Some "") ∅ = Raises (Exn ValueError (Some "OpenAI API key is required")) /\
  dom (tools agent0) = {["search_web"; "calculate"; "get_weather"]}.
Proof.
  destruct (init_chooses_key (Some "sk-test") test_environ) as (Hgiven & _ & _ & Hshape).
  destruct (init_chooses_key None test_environ) as (_ & Henv & _ & _).
  destruct (init_chooses_key (Some "") ∅) as (_ & _ & Hnone & _).
  split; [apply Hgiven; [discriminate | reflexivity] |].
  split; [apply Henv; [auto | reflexivity | discriminate] |].
  split; [apply Hnone; auto |].
  apply (Hshape agent0). reflexivity.
Defined.

Lemma call_llm_malformed_body_witness :
  (_call_llm (scripted [empty_body]) agent0 "hello" []).1 =
  Raises (Exn KeyError (Some "'choices'")).
Proof.
  apply (proj1 (proj2 (call_llm_malformed_body (scripted [empty_body]) agent0 "hello" []
                         empty_body eq_refl eq_refl)) []); reflexivity.
Defined.


Lemma chat_stops_at_failed_parse_witness :
  (_parse_task (scripted [server_error]) (memory_append agent0 (user_message "hello"))
     "hello" []).1 =
  Raises (Exn Exception (Some "API call failed: Internal Server Error")) /\
  chat (scripted [server_error]) agent0 "hello" [] =
  (Raises (Exn Exception (Some "API call failed: Internal Server Error")),
   memory_append agent0 (user_message "hello"),
   [] ++ [llm_request agent0 (parse_prompt "hello")]).
Proof.
  assert (Hparse : (_parse_task (scripted [server_error])
                      (memory_append agent0 (user_message "hello")) "hello" []).1 =
                   Raises (Exn Exception (Some "API call failed: Internal Server Error")))
    by reflexivity.
  split; [exact Hparse |].
  exact (chat_stops_at_failed_parse (scripted [server_error]) agent0 "hello" [] _ Hparse).
Defined.

Lemma chat_object_plan_raises_witness :
  exists sent2,
    chat (scripted [completion (PyStr task_text); completion (PyStr object_plan_text)])
      agent0 "What's 5 * 7?" [] =
    (Raises (Exn TypeError None),
     memory_append agent0 (user_message "What's 5 * 7?"), sent2) /\
    length sent2 = 2%nat.
Proof.
  set (backend := scripted [completion (PyStr task_text); completion (PyStr object_plan_text)]).
  set (self1 := memory_append agent0 (user_message "What's 5 * 7?")).
  assert (Hparse : exists task sent1,
             _parse_task backend self1 "What's 5 * 7?" [] = (Returns task, sent1))
    by (eexists _, _; vm_compute; reflexivity).
  destruct Hparse as (task & sent1 & Hparse).
  assert (Hplan : exists sent2,
             _plan_steps backend self1 task sent1 =
             (Returns (PyDict [("tool", PyStr "calculate");
                               ("parameters", PyDict [("expression", PyStr "5*7")])]), sent2) /\
             length sent2 = 2%nat).
  { vm_compute in Hparse. injection Hparse as <- <-.
    eexists. split; vm_compute; reflexivity. }
  destruct Hplan as (sent2 & Hplan & Hlen).
  exists sent2. split; [| exact Hlen].
  exact (chat_object_plan_raises backend agent0 "What's 5 * 7?" [] sent1 sent2 task
           _ _ _ Hparse Hplan).
Defined.

Lemma execute_steps_not_a_list_witness :
  _execute_steps agent0 PyNone =
  Raises (Exn TypeError (Some "'NoneType' object is not iterable")) /\
  _execute_steps agent0 calculate_step = Raises (Exn TypeError None).
Proof.
  destruct (execute_steps_not_a_list agent0) as (Hdict & _ & Hscalar & _).
  split; [apply (Hscalar PyNone); auto |]. apply Hdict.
Defined.


Lemma tool_name_not_a_string_witness :
  execute_step agent0 (PyDict [("tool", PyInt 5); ("parameters", PyDict [])]) =
  Returns (PyDict [("step", PyDict [("tool", PyInt 5); ("parameters", PyDict [])]);
                   ("error", PyStr "Tool '5' not found")]) /\
  execute_step agent0 (PyDict [("tool", PyList []); ("parameters", PyDict [])]) =
  Raises (Exn TypeError (Some "unhashable type: 'list'")).
Proof.
  split.
  - apply (proj1 (tool_name_not_a_string agent0
                    (PyDict [("tool", PyInt 5); ("parameters", PyDict [])])
                    (PyInt 5) (PyDict []) eq_refl eq_refl) "5");
      [eauto | vm_compute; reflexivity].
  - apply (proj2 (tool_name_not_a_string agent0
                    (PyDict [("tool", PyList []); ("parameters", PyDict [])])
                    (PyList []) (PyDict []) eq_refl eq_refl)).
    eauto.
Defined.


Lemma calculate_not_a_string_witness :
  calculate (PyInt 5) =
  Returns (PyDict [("error", PyStr "eval() arg 1 must be a string, bytes or code object")]).
Proof. apply calculate_not_a_string. discriminate. Defined.

Lemma calculate_outcome_is_a_result_witness :
  calculate (PyStr "1/0") = Returns (PyDict [("error", PyStr "division by zero")]) /\
  _execute_steps agent0
    (PyList ([] ++ step_of "calculate" [("expression", PyStr "1/0")] :: [weather_step])) =
  (let* final :=
     execute_loop agent0 [weather_step]
       ([] ++ [PyDict [("step", step_of "calculate" [("expression", PyStr "1/0")]);
                       ("result", PyDict [("error", PyStr "division by zero")])]]) in
   Returns (PyDict [("results", PyList final)])).
Proof.
  assert (Hcalc : calculate (PyStr "1/0") =
                  Returns (PyDict [("error", PyStr "division by zero")]))
    by (vm_compute; reflexivity).
  split; [exact Hcalc |].
  apply (calculate_outcome_is_a_result agent0 [] [weather_step] (PyStr "1/0") _ []);
    [vm_compute; reflexivity | reflexivity | exact Hcalc].
Defined.

Lemma calculate_division_by_zero_witness :
  render (AOp Plus (ALit 2) (ALit 3)) +:+ "/0" = "(2+3)/0" /\
  calculate (PyStr "(2+3)/0") = Returns (PyDict [("error", PyStr "division by zero")]).
Proof.
  split; [reflexivity |].
  apply (calculate_division_by_zero (AOp Plus (ALit 2) (ALit 3))).
  vm_compute. lia.
Defined.

Lemma generate_response_window_witness :
  let self := {| api_key := "sk-test"; tools := builtin_tools;
                 memory := map (fun n => user_message (pretty n)) (seq 0 12) |} in
  length (memory_window self) = 10%nat /\
  head (memory_window self) = Some (user_message "2").
Proof.
  intros self.
  assert (Hr : exists r, json_dumps (PyDict [("results", PyList [])]) = Returns r)
    by (eexists; vm_compute; reflexivity).
  assert (Hc : exists c, json_dumps (PyList (memory_window self)) = Returns c)
    by (eexists; vm_compute; reflexivity).
  destruct Hr as [r Hr]. destruct Hc as [c Hc].
  destruct (generate_response_window (scripted []) self _ [] r c Hr Hc) as (_ & Hlen & _ & _).
  split; [exact Hlen | reflexivity].
Defined.

Lemma session_ignores_what_follows_witness :
  repl (scripted []) agent0 ([Line "Exit"] ++ [Line "hello"]) [] =
  ([PPrompt; PGoodbye], Break, agent0, []).
Proof.
  rewrite session_ignores_what_follows; [reflexivity | discriminate].
Defined.

Lemma exit_ends_the_session_witness :
  is_exit_line "EXIT" /\
  repl (scripted []) agent0 [Line "EXIT"; Line "hello"] [] =
  ([PPrompt; PGoodbye], Break, agent0, []).
Proof.
  assert (Hexit : is_exit_line "EXIT").
  { exists "E"%char, "X"%char, "I"%char, "T"%char. repeat split; auto. }
  split; [exact Hexit |].
  apply (proj2 (exit_ends_the_session (scripted []) agent0 "EXIT" [Line "hello"] [])).
  exact Hexit.
Defined.

Lemma main_lets_out_no_Exception_witness :
  (main (scripted [completion (PyStr task_text); completion (PyStr exit_plan_text)])
     test_environ [Line "leave"]).2 = Raises (Exn SystemExit None) /\
  is_Exception SystemExit = false.
Proof.
  assert (Hmain : (main (scripted [completion (PyStr task_text);
                                   completion (PyStr exit_plan_text)])
                     test_environ [Line "leave"]).2 = Raises (Exn SystemExit None))
    by (vm_compute; reflexivity).
  split; [exact Hmain |].
  exact (proj1 (main_lets_out_no_Exception _ _ _ _ Hmain)).
Defined.

Lemma main_without_key_witness :
  main (scripted []) ∅ [Line "hello"] =
  ([PError (Exn ValueError (Some "OpenAI API key is required"))], Returns tt).
Proof. apply main_without_key. left. reflexivity. Defined.

Lemma simulated_plan_returns_witness :
  exists batch,
    _execute_steps agent0 (PyList [weather_step; unknown_step]) =
    Returns (PyDict [("results", PyList batch)]) /\
    length batch = 2%nat.
Proof.
  apply (simulated_plan_returns agent0 [weather_step; unknown_step]); [reflexivity |].
  constructor; [right; left; eexists; reflexivity |].
  constructor; [| constructor].
  right. right. exists "translate", [("text", PyStr "bonjour")].
  split; [reflexivity |]. repeat split; discriminate.
Defined.

(** A session of one question and [exit]. *)
Example main_session :
  main (scripted [completion (PyStr task_text); completion (PyStr good_plan_text);
                  completion (PyStr "The answer is 35.")])
    test_environ [Line "What's 5 * 7?"; Line "exit"] =
  ([PBanner; PRule; PPrompt; PReply (PyStr "The answer is 35."); PPrompt; PGoodbye],
   Returns tt).
Proof. vm_compute. reflexivity. Qed.

(** A session that the user leaves with Ctrl-C, and one whose input
    ends. *)
Example main_interrupted :
  main (scripted []) test_environ [CtrlC] = ([PBanner; PRule; PPrompt; PExiting], Returns tt).
Proof. vm_compute. reflexivity. Qed.

Example main_end_of_input :
  main (scripted []) test_environ [] = ([PBanner; PRule; PPrompt; PErrorEOF], Returns tt).
Proof. vm_compute. reflexivity. Qed.
